(** * Simple_quiz_app: the quiz API (Docker V1/app.py) and the quiz flow (app.py)

    A shallow embedding of the two applications and the properties of their
    validation, import, listing, retrieval and attempt-state routines.

    Layout: the Python layer the routes rely on ([Py]), the API of
    [Docker V1/app.py] ([DockerV1]), the session flow of [app.py] ([App]),
    then the lemmas and theorems. *)

From Stdlib Require Import ZArith List String Ascii Bool Lia Permutation.
From Stdlib Require Import DecimalString Sorted OrderedTypeEx.
Import ListNotations.

Set Warnings "-register-all".

Open Scope string_scope.
Open Scope Z_scope.

(** ** The Python layer *)

Module Py.

(** Exceptions the routes can raise.  [HTTPException] is FastAPI's; the
    others escape the handler and end the request with a server error. *)
Inductive exn : Type :=
| HTTPException (status_code : Z) (detail : string)
| AttributeError
| IndexError
| KeyError (key : string)
| ValueError
| IntegrityError
| DBAPIError.

Inductive outcome (A : Type) : Type :=
| Ok (a : A)
| Raise (e : exn).
Arguments Ok {A} a.
Arguments Raise {A} e.

Definition bind {A B : Type} (m : outcome A) (k : A -> outcome B) : outcome B :=
  match m with
  | Ok a => k a
  | Raise e => Raise e
  end.

(** *** Strings

    A [str] is a Rocq [string]; the character classes of [strip], [split]
    and [int] are the ASCII ones (the code points below 128 for which
    [str.isspace] holds, and the digits 0-9). *)

Definition code (c : ascii) : Z := Z.of_N (N_of_ascii c).

Definition is_space (c : ascii) : bool :=
  let n := code c in
  ((9 <=? n) && (n <=? 13)) || ((28 <=? n) && (n <=? 32)).

Fixpoint lstrip (s : string) : string :=
  match s with
  | String c s' => if is_space c then lstrip s' else s
  | EmptyString => EmptyString
  end.

Fixpoint rev_onto (s acc : string) : string :=
  match s with
  | String c s' => rev_onto s' (String c acc)
  | EmptyString => acc
  end.

Definition rev (s : string) : string := rev_onto s EmptyString.

Definition rstrip (s : string) : string := rev (lstrip (rev s)).

(** [s.strip()] *)
Definition strip (s : string) : string := rstrip (lstrip s).

Fixpoint take_word (s : string) : string :=
  match s with
  | String c s' => if is_space c then EmptyString else String c (take_word s')
  | EmptyString => EmptyString
  end.

(** [s.split()[0]]: the first whitespace-separated word; [IndexError] when
    the string holds no word. *)
Definition split_first (s : string) : outcome string :=
  match lstrip s with
  | EmptyString => Raise IndexError
  | w => Ok (take_word w)
  end.

(** [s.split(sep)] for a separator of one character: the pieces between the
    separators, empty ones included. *)
Fixpoint split_on (sep : ascii) (s : string) : list string :=
  match s with
  | EmptyString => [EmptyString]
  | String c s' =>
      if Ascii.eqb c sep then EmptyString :: split_on sep s'
      else match split_on sep s' with
           | w :: ws => String c w :: ws
           | [] => [String c EmptyString]
           end
  end.

(** [s.startswith(p)] *)
Fixpoint startswith (p s : string) : bool :=
  match p, s with
  | EmptyString, _ => true
  | String a p', String b s' => Ascii.eqb a b && startswith p' s'
  | String _ _, EmptyString => false
  end.

Fixpoint after_first_space (s : string) : option string :=
  match s with
  | EmptyString => None
  | String c s' => if Ascii.eqb c " " then Some s' else after_first_space s'
  end.

(** [s.split(" ", 1)[1]]: what follows the first blank. *)
Definition split1_second (s : string) : outcome string :=
  match after_first_space s with
  | Some r => Ok r
  | None => Raise IndexError
  end.

(** The double quote, for messages that contain one. *)
Definition dquote : string := String (ascii_of_nat 34) EmptyString.

(** [str(n)] for an [int] *)
Definition str_of_int (n : Z) : string := NilZero.string_of_int (Z.to_int n).

Definition is_digit (c : ascii) : bool :=
  let n := code c in (48 <=? n) && (n <=? 57).

(** Digits of an [int] literal: one underscore is allowed between two
    digits.  [seen] tells whether the previous character was a digit. *)
Fixpoint parse_digits (acc : Z) (seen : bool) (s : string) : option Z :=
  match s with
  | EmptyString => if seen then Some acc else None
  | String c s' =>
      if is_digit c then parse_digits (10 * acc + (code c - 48)) true s'
      else if Ascii.eqb c "_" then
             if seen then parse_digits acc false s' else None
           else None
  end.

(** [int(s)] for a [str]: surrounding whitespace, an optional sign, decimal
    digits.  [None] stands for [ValueError].  (The interpreter's configurable
    cap on the number of digits is left out.) *)
Definition int_of_string (s : string) : option Z :=
  match strip s with
  | String "+" r => parse_digits 0 false r
  | String "-" r => option_map Z.opp (parse_digits 0 false r)
  | r => parse_digits 0 false r
  end.

(** *** Floats and JSON values *)

(** A [float]: not-a-number, an infinity, or the dyadic [m * 2^e]. *)
Inductive pyfloat : Type :=
| FNan
| FInf (negative : bool)
| FFinite (m e : Z).

(** [int(f)]: truncation towards zero; [None] stands for the [ValueError] /
    [OverflowError] of nan and the infinities. *)
Definition int_of_float (f : pyfloat) : option Z :=
  match f with
  | FNan | FInf _ => None
  | FFinite m e => Some (if 0 <=? e then m * 2 ^ e else Z.quot m (2 ^ (- e)))
  end.

(** What [json.loads] produces. A [dict] is the list of its items in
    insertion order. *)
Inductive jvalue : Type :=
| JNull
| JBool (b : bool)
| JInt (n : Z)
| JFloat (f : pyfloat)
| JStr (s : string)
| JList (l : list jvalue)
| JDict (d : list (string * jvalue)).

(** Truth value of an object, as [or], [not] and [if] test it. *)
Definition truthy (v : jvalue) : bool :=
  match v with
  | JNull => false
  | JBool b => b
  | JInt n => negb (n =? 0)
  | JFloat (FFinite m _) => negb (m =? 0)
  | JFloat _ => true
  | JStr s => negb (s =? "")%string
  | JList l => match l with [] => false | _ => true end
  | JDict d => match d with [] => false | _ => true end
  end.

(** [a or b] *)
Definition py_or (a b : jvalue) : jvalue := if truthy a then a else b.

Fixpoint lookup (d : list (string * jvalue)) (k : string) : option jvalue :=
  match d with
  | [] => None
  | (k', v) :: d' => if (k' =? k)%string then Some v else lookup d' k
  end.

(** [d.get(k)]: [None] when the key is absent. *)
Definition get (d : list (string * jvalue)) (k : string) : jvalue :=
  match lookup d k with
  | Some v => v
  | None => JNull
  end.

(** [l[i]] on a list, with Python's negative indices. *)
Definition getitem {A : Type} (l : list A) (i : Z) : outcome A :=
  let n := Z.of_nat (List.length l) in
  let j := if i <? 0 then i + n else i in
  if (0 <=? j) && (j <? n)
  then match nth_error l (Z.to_nat j) with
       | Some x => Ok x
       | None => Raise IndexError
       end
  else Raise IndexError.

End Py.

Import Py.

Notation "x <- m ;; k" := (bind m (fun x => k))
  (at level 61, m at next level, right associativity).
Notation "m ;;; k" := (bind m (fun _ => k))
  (at level 61, right associativity).

(** ** Docker V1/app.py: the quiz API *)

Module DockerV1.

(** A validated question entry: [{"q": q, "options": options, "correct": ans_idx}]. *)
Record item : Type := {
  q : string;
  options : list string;
  correct : Z
}.

(** The [quizzes] table: one [Quiz] per row.  [skill], [difficulty] and
    [yoe] are nullable columns; a [datetime] is its offset from the epoch. *)
Record Quiz : Type := {
  id : string;
  test_name : string;
  skill : option string;
  difficulty : option string;
  yoe : option string;
  question_count : Z;
  json : jvalue;
  status : string;
  created_at : Z;
  updated_at : Z
}.

Module ImportPayload.
Record t : Type := {
  json : jvalue;
  skill : option string;
  difficulty : option string;
  yoe : option string
}.
End ImportPayload.

Record ValidateResponse : Type := {
  validate_ok : bool;
  validate_question_count : Z;
  detected_test_name : jvalue
}.

Record ImportMeta : Type := {
  meta_test_name : jvalue;
  meta_skill : string;
  meta_difficulty : string;
  meta_yoe : string;
  meta_count : Z
}.

Record ImportResponse : Type := {
  import_ok : bool;
  import_id : string;
  import_url : string;
  import_meta : ImportMeta
}.

Record ListItem : Type := {
  item_id : string;
  item_test_name : string;
  item_skill : option string;
  item_difficulty : option string;
  item_yoe : option string;
  item_count : Z;
  item_url : string;
  item_created_at : string
}.

Record Listing : Type := {
  skills : list (option string * Z);
  items : list ListItem
}.

(** The [allow_origins] handed to the CORS middleware:
    [[o.strip() for o in CORS_ALLOW_ORIGINS.split(",") if o.strip()]]. *)
Definition allow_origins (CORS_ALLOW_ORIGINS : string) : list string :=
  map strip
      (filter (fun o => negb (strip o =? "")%string)
              (split_on "," CORS_ALLOW_ORIGINS)).

(** [a or d] for an [Optional[str]] and a [str]. *)
Definition or_str (a : option string) (d : string) : string :=
  match a with
  | Some s => if (s =? "")%string then d else s
  | None => d
  end.

(** *** What the SQL of the read routes computes *)

Definition lower_char (c : ascii) : ascii :=
  let n := code c in
  if (65 <=? n) && (n <=? 90) then ascii_of_N (N_of_ascii c + 32) else c.

Fixpoint lower (s : string) : string :=
  match s with
  | String c s' => String (lower_char c) (lower s')
  | EmptyString => EmptyString
  end.

(** [s LIKE p]: [%] matches any run of characters, [_] any one character,
    and a backslash takes the next character of the pattern literally.
    (The server refuses a pattern that ends in a lone backslash; no pattern
    built by [list_quizzes] does, and [like] answers [false] there.) *)
Fixpoint like (p s : string) {struct p} : bool :=
  match p with
  | EmptyString =>
      match s with
      | EmptyString => true
      | String _ _ => false
      end
  | String c p' =>
      if Ascii.eqb c "%" then
        (fix any (s : string) : bool :=
           like p' s
           || match s with
              | EmptyString => false
              | String _ s' => any s'
              end) s
      else if Ascii.eqb c "_" then
        match s with
        | String _ s' => like p' s'
        | EmptyString => false
        end
      else if Ascii.eqb c "\" then
        match p' with
        | String d p'' =>
            match s with
            | String x s' => Ascii.eqb x d && like p'' s'
            | EmptyString => false
            end
        | EmptyString => false
        end
      else
        match s with
        | String x s' => Ascii.eqb x c && like p' s'
        | EmptyString => false
        end
  end.

(** [s ILIKE p]: [LIKE] on the lower-cased pattern and string. *)
Definition ilike (p s : string) : bool := like (lower p) (lower s).

(** [col = :v] and [col ILIKE :p] on a nullable column: never true on NULL. *)
Definition col_eq (col : option string) (v : string) : bool :=
  match col with
  | Some c => (c =? v)%string
  | None => false
  end.

Definition col_ilike (col : option string) (p : string) : bool :=
  match col with
  | Some c => ilike p c
  | None => false
  end.

(** [ORDER BY skill ASC]: NULLs come last; strings compare character by
    character, as under the C collation. *)
Definition skill_compare (a b : option string) : comparison :=
  match a, b with
  | Some x, Some y => String.compare x y
  | Some _, None => Lt
  | None, Some _ => Gt
  | None, None => Eq
  end.

Fixpoint insert_by {A : Type} (le : A -> A -> bool) (x : A) (l : list A) : list A :=
  match l with
  | [] => [x]
  | y :: l' => if le x y then x :: l else y :: insert_by le x l'
  end.

Definition order_by {A : Type} (le : A -> A -> bool) (l : list A) : list A :=
  fold_right (insert_by le) [] l.

Definition opt_eqb (a b : option string) : bool :=
  match a, b with
  | Some x, Some y => (x =? y)%string
  | None, None => true
  | _, _ => false
  end.

(** [GROUP BY skill] with [COUNT( * )] *)
Fixpoint bump (k : option string) (acc : list (option string * Z))
  : list (option string * Z) :=
  match acc with
  | [] => [(k, 1)]
  | (k', n) :: acc' =>
      if opt_eqb k k' then (k', n + 1) :: acc' else (k', n) :: bump k acc'
  end.

Definition group_count (rows : list Quiz) : list (option string * Z) :=
  fold_left (fun acc r => bump (skill r) acc) rows [].

(** [if x:] on an optional query parameter *)
Definition given (x : option string) : option string :=
  match x with
  | Some s => if (s =? "")%string then None else Some s
  | None => None
  end.

Definition published (r : Quiz) : bool := (status r =? "published")%string.

Section Routes.

(** The environment: [ADMIN_TOKEN] and [PUBLIC_BASE_URL] are read from
    the process environment at start-up. *)
Variable ADMIN_TOKEN : string.
Variable PUBLIC_BASE_URL : string.

(** The interpreter's and the driver's renderings the routes call but do
    not define: [str(x)] of a float, a list or a dict; the text the
    database driver stores when an object that is not a [str] is bound to
    the [test_name] column ([None] when it refuses the object); and
    [datetime.isoformat]. *)
Variable py_repr : jvalue -> string.
Variable adapt_text : jvalue -> option string.
Variable isoformat : Z -> string.

(** [str(x)] *)
Definition str (x : jvalue) : string :=
  match x with
  | JStr s => s
  | JNull => "None"
  | JBool true => "True"
  | JBool false => "False"
  | JInt n => str_of_int n
  | _ => py_repr x
  end.

(** [int(a)]; [None] stands for the exception the bare [except] catches. *)
Definition int (a : jvalue) : option Z :=
  match a with
  | JBool b => Some (if b then 1 else 0)
  | JInt n => Some n
  | JFloat f => int_of_float f
  | JStr s => int_of_string s
  | _ => None
  end.

(** [f"Q{i}: ..."] *)
Definition Q (i : Z) (msg : string) : string :=
  "Q" ++ str_of_int i ++ ": " ++ msg.

(** [arr] of [normalize_and_validate] *)
Definition question_array (root : jvalue) : jvalue :=
  match root with
  | JList _ => root
  | JDict d => get d "questions"
  | _ => JNull
  end.

(** [not o or not o.strip()] *)
Definition blank (o : string) : bool :=
  (o =? "")%string || (strip o =? "")%string.

(** [(it.get("q") or it.get("question") or "").strip()]: only a [str]
    has [strip]. *)
Definition question_text (d : list (string * jvalue)) : outcome string :=
  match py_or (py_or (get d "q") (get d "question")) (JStr "") with
  | JStr s => Ok (strip s)
  | _ => Raise AttributeError
  end.

(** [["" if x is None else str(x) for x in options]] *)
Definition strings (options : list jvalue) : list string :=
  map (fun x => match x with JNull => "" | _ => str x end) options.

(** The options of an entry: its ["options"] list, else its keys ["1"]
    to ["4"]. *)
Definition option_strings (d : list (string * jvalue)) : list string :=
  match get d "options" with
  | JList l => strings l
  | _ =>
      let options := [get d "1"; get d "2"; get d "3"; get d "4"] in
      strings options
  end.

(** The nested [try]: [int(a)], and when that raises
    [int(str(a).strip())]; [None] when both raise. *)
Definition answer_int (a : jvalue) : option Z :=
  match int a with
  | Some n => Some n
  | None => int_of_string (strip (str a))
  end.

(** [if 1 <= ans_idx <= 4: ans_idx -= 1] *)
Definition shift_one_based (ans_idx : Z) : Z :=
  if (1 <=? ans_idx) && (ans_idx <=? 4) then ans_idx - 1 else ans_idx.

(** One turn of the loop of [normalize_and_validate], for the entry [it]
    at the 1-based position [i]. *)
Definition validate_entry (i : Z) (it : jvalue) : outcome item :=
  match it with
  | JDict d =>
      q <- question_text d ;;
      if (q =? "")%string
      then Raise (HTTPException 400 (Q i "missing question text"))
      else
        let options := option_strings d in
        if negb (Nat.eqb (List.length options) 4)
        then Raise (HTTPException 400 (Q i "must provide exactly 4 options"))
        else if existsb blank options
        then Raise (HTTPException 400 (Q i "options cannot be empty"))
        else
          let a := get d "a" in
          match a with
          | JNull | JStr "" =>
              Raise (HTTPException 400 (Q i "missing correct answer (a)"))
          | _ =>
              match answer_int a with
              | None => Raise (HTTPException 400 (Q i "invalid answer index"))
              | Some ans_idx =>
                  let ans_idx := shift_one_based ans_idx in
                  if negb ((0 <=? ans_idx) && (ans_idx <? 4))
                  then Raise (HTTPException 400
                                (Q i "answer (a) must be 1–4 (or 0–3)"))
                  else Ok {| q := q; options := options; correct := ans_idx |}
              end
          end
  | _ => Raise (HTTPException 400 (Q i "not an object"))
  end.

(** The loop [for i, it in enumerate(arr, start=1)], appending to [items]. *)
Fixpoint validate_loop (i : Z) (items : list item) (arr : list jvalue)
  : outcome (list item) :=
  match arr with
  | [] => Ok items
  | it :: rest =>
      x <- validate_entry i it ;;
      validate_loop (i + 1) (items ++ [x])%list rest
  end.

(** The detected test name: the first truthy of ["Test Name"],
    ["testName"] and [meta.testName], else [""]. *)
Definition detect_test_name (root : jvalue) : outcome jvalue :=
  match root with
  | JDict d =>
      let t := py_or (get d "Test Name") (get d "testName") in
      if truthy t then Ok t
      else
        match py_or (get d "meta") (JDict []) with
        | JDict m => Ok (py_or (get m "testName") (JStr ""))
        | _ => Raise AttributeError
        end
  | _ => Ok (JStr "")
  end.

Definition normalize_and_validate (root : jvalue)
  : outcome (list item * jvalue) :=
  match question_array root with
  | JList (it :: rest) =>
      items <- validate_loop 1 [] (it :: rest) ;;
      test_name <- detect_test_name root ;;
      Ok (items, test_name)
  | _ =>
      Raise (HTTPException 400
               ("Invalid JSON: must be an array or {" ++ dquote ++ "questions"
                  ++ dquote ++ ": [...]}"))
  end.

Definition require_admin (authorization : option string) : outcome unit :=
  match authorization with
  | Some a =>
      if (a =? "")%string || negb (startswith "Bearer " a)
      then Raise (HTTPException 401 "Missing or invalid Authorization header")
      else
        token <- split1_second a ;;
        if negb (token =? ADMIN_TOKEN)%string
        then Raise (HTTPException 403 "Forbidden")
        else Ok tt
  | None =>
      Raise (HTTPException 401 "Missing or invalid Authorization header")
  end.

Definition api_validate (payload : ImportPayload.t) : outcome ValidateResponse :=
  r <- normalize_and_validate (ImportPayload.json payload) ;;
  let '(items, test_name) := r in
  Ok {| validate_ok := true;
        validate_question_count := Z.of_nat (List.length items);
        detected_test_name := py_or test_name JNull |}.

(** [with Session.begin() as s: s.add(row)]: the insert is committed
    unless the primary key [id] is taken. *)
Definition session_add (row : Quiz) (db : list Quiz) : outcome (list Quiz) :=
  if existsb (fun r => (id r =? id row)%string) db
  then Raise IntegrityError
  else Ok (db ++ [row])%list.

(** [api_import], with the fresh [uuid4] and the clock reading as
    arguments; it returns the response or the exception, and the table
    as the request leaves it. *)
Definition api_import (payload : ImportPayload.t) (authorization : option string)
    (qid : string) (now : Z) (db : list Quiz)
  : outcome ImportResponse * list Quiz :=
  let run :=
    require_admin authorization ;;;
    r <- normalize_and_validate (ImportPayload.json payload) ;;
    let '(items, test_name) := r in
    let count := Z.of_nat (List.length items) in
    skill <- (let s := strip (or_str (ImportPayload.skill payload) "") in
              if negb (s =? "")%string then Ok s
              else
                w <- (if truthy test_name
                      then match test_name with
                           | JStr t => w <- split_first t ;; Ok (Some w)
                           | _ => Raise AttributeError
                           end
                      else Ok None) ;;
                Ok (or_str w "General")) ;;
    let difficulty := strip (or_str (ImportPayload.difficulty payload) "Mixed") in
    let yoe := or_str (Some (strip (or_str (ImportPayload.yoe payload) ""))) "N/A" in
    let display_name := py_or test_name (JStr ("Custom " ++ skill)) in
    name <- match display_name with
            | JStr s => Ok s
            | v => match adapt_text v with
                   | Some s => Ok s
                   | None => Raise DBAPIError
                   end
            end ;;
    let row := {| id := qid;
                  test_name := name;
                  skill := Some skill;
                  difficulty := Some difficulty;
                  yoe := Some yoe;
                  question_count := count;
                  json := ImportPayload.json payload;
                  status := "published";
                  created_at := now;
                  updated_at := now |} in
    db' <- session_add row db ;;
    Ok (db',
        {| import_ok := true;
           import_id := qid;
           import_url := PUBLIC_BASE_URL ++ "/quizzes/" ++ qid ++ ".json";
           import_meta := {| meta_test_name := display_name;
                             meta_skill := skill;
                             meta_difficulty := difficulty;
                             meta_yoe := yoe;
                             meta_count := count |} |})
  in
  match run with
  | Ok (db', response) => (Ok response, db')
  | Raise e => (Raise e, db)
  end.

(** [(test_name ILIKE :q OR skill ILIKE :q)] with [q = f"%{search}%"] *)
Definition search_matches (search : string) (r : Quiz) : bool :=
  let q := "%" ++ search ++ "%" in
  ilike q (test_name r) || col_ilike (skill r) q.

(** The [WHERE] clause [list_quizzes] builds for its three parameters. *)
Definition listing_where (skill_ difficulty_ search : option string)
    (r : Quiz) : bool :=
  published r
  && match given skill_ with
     | Some v => col_eq (skill r) v
     | None => true
     end
  && match given difficulty_ with
     | Some v => col_eq (difficulty r) v
     | None => true
     end
  && match given search with
     | Some v => search_matches v r
     | None => true
     end.

(** [ORDER BY skill ASC, created_at DESC] *)
Definition listing_le (a b : Quiz) : bool :=
  match skill_compare (skill a) (skill b) with
  | Lt => true
  | Gt => false
  | Eq => created_at b <=? created_at a
  end.

Definition listing_rows (skill_ difficulty_ search : option string)
    (db : list Quiz) : list Quiz :=
  order_by listing_le (filter (listing_where skill_ difficulty_ search) db).

(** The dict [list_quizzes] builds from a selected row. *)
Definition listing_item (r : Quiz) : ListItem :=
  {| item_id := id r;
     item_test_name := test_name r;
     item_skill := skill r;
     item_difficulty := difficulty r;
     item_yoe := yoe r;
     item_count := question_count r;
     item_url := PUBLIC_BASE_URL ++ "/quizzes/" ++ id r ++ ".json";
     item_created_at := isoformat (created_at r) ++ "Z" |}.

Definition list_quizzes (skill_ difficulty_ search : option string)
    (db : list Quiz) : Listing :=
  let rows := listing_rows skill_ difficulty_ search db in
  let summary :=
    order_by (fun a b => match skill_compare (fst a) (fst b) with
                         | Gt => false
                         | _ => true
                         end)
             (group_count (filter published db)) in
  {| skills := summary;
     items := map listing_item rows |}.

(** [get_quiz_json]: [.scalar()] is the [json] column of the first row
    selected, or [None] when no row is. *)
Definition get_quiz_json (quiz_id : string) (db : list Quiz) : outcome jvalue :=
  let row :=
    match filter (fun r => (id r =? quiz_id)%string && published r) db with
    | r :: _ => json r
    | [] => JNull
    end in
  match row with
  | JNull => Raise (HTTPException 404 "Quiz not found")
  | _ => Ok row
  end.

(** [manifest]: the URLs of the published quizzes, newest first, 500 at most
    ([ORDER BY created_at DESC LIMIT 500]). *)
Definition manifest (db : list Quiz) : list string :=
  let rows :=
    firstn 500 (order_by (fun a b => created_at b <=? created_at a)
                         (filter published db)) in
  map (fun r => PUBLIC_BASE_URL ++ "/quizzes/" ++ id r ++ ".json") rows.

End Routes.

End DockerV1.

(** ** app.py: the session-driven quiz flow *)

Module App.

(** Modelled from the spec: an entry of the question bank
    [questions.json], which is not among the sources.  The routes read two
    of its keys: [options], a dict from option key to option text, and
    [answer], the answer text. *)
Record Question : Type := {
  options : list (string * string);
  answer : string
}.

(** An entry of the answer log:
    [{'question': ..., 'correct': ..., 'selected_option': ...}]. *)
Record Answer : Type := {
  question : Question;
  correct : bool;
  selected_option : option string
}.

(** The Flask session: a dict in which each of the four keys may be absent. *)
Record Session : Type := {
  questions : option (list Question);
  current_question : option Z;
  score : option Z;
  answers : option (list Answer)
}.

Inductive Response : Type :=
| redirect (endpoint : string)
| render_index
| render_test (question : Question) (current_question : Z)
| render_result (score : Z) (incorrect_answers : list Answer).

(** [session.get(key, default)] *)
Definition get_default {A : Type} (v : option A) (default : A) : A :=
  match v with
  | Some x => x
  | None => default
  end.

(** [session[key]] *)
Definition session_item {A : Type} (key : string) (v : option A) : outcome A :=
  match v with
  | Some x => Ok x
  | None => Raise (KeyError key)
  end.

(** The contract of [random.sample(range(n), k)]: [k] pairwise distinct
    elements of the range.  The call raises [ValueError] when [k] exceeds
    [n]; otherwise the list it returns is an argument of [start_test]. *)
Definition random_sample (n k : Z) (indices : list Z) : Prop :=
  Z.of_nat (List.length indices) = k
  /\ NoDup indices
  /\ Forall (fun i => 0 <= i < n) indices.

(** [[questions[i] for i in indices]] *)
Fixpoint pick (questions : list Question) (indices : list Z)
  : outcome (list Question) :=
  match indices with
  | [] => Ok []
  | i :: rest =>
      x <- getitem questions i ;;
      xs <- pick questions rest ;;
      Ok (x :: xs)
  end.

Definition index : Response := render_index.

(** [start_test], for the loaded bank [questions] and the list [indices]
    that [random.sample] returns. *)
Definition start_test (questions : list Question) (indices : list Z)
    (session : Session) : outcome (Session * Response) :=
  if Z.of_nat (List.length questions) <? 5 then Raise ValueError
  else
    sampled <- pick questions indices ;;
    Ok ({| questions := Some sampled;
           current_question := Some 0;
           score := Some 0;
           answers := Some [] |},
        redirect "test").

Definition test (session : Session) : outcome Response :=
  let current_question := get_default (current_question session) 0 in
  let questions := get_default (questions session) [] in
  if current_question <? Z.of_nat (List.length questions) then
    question <- getitem questions current_question ;;
    Ok (render_test question (current_question + 1))
  else Ok (redirect "result").

(** The loop over [options.items()]: the first key whose value is the
    answer text, [None] when there is none. *)
Fixpoint correct_key (items : list (string * string)) (answer : string)
  : option string :=
  match items with
  | [] => None
  | (key, value) :: rest =>
      if (value =? answer)%string then Some key else correct_key rest answer
  end.

(** [selected_option == correct_option], both a [str] or [None]. *)
Definition option_eqb (a b : option string) : bool :=
  match a, b with
  | Some x, Some y => (x =? y)%string
  | None, None => true
  | _, _ => false
  end.

(** [session['score'] += 1] *)
Definition incr_score (session : Session) : outcome Session :=
  sc <- session_item "score" (score session) ;;
  Ok {| questions := questions session;
        current_question := current_question session;
        score := Some (sc + 1);
        answers := answers session |}.

(** [session['answers'].append(entry)] *)
Definition append_answer (entry : Answer) (session : Session) : outcome Session :=
  log <- session_item "answers" (answers session) ;;
  Ok {| questions := questions session;
        current_question := current_question session;
        score := score session;
        answers := Some (log ++ [entry])%list |}.

(** [session['current_question'] += 1] *)
Definition incr_current_question (session : Session) : outcome Session :=
  cq <- session_item "current_question" (current_question session) ;;
  Ok {| questions := questions session;
        current_question := Some (cq + 1);
        score := score session;
        answers := answers session |}.

(** [submit], for the value [request.form.get('option')]. *)
Definition submit (form_option : option string) (session : Session)
  : outcome (Session * Response) :=
  let current_question := get_default (current_question session) 0 in
  let questions := get_default (questions session) [] in
  if current_question <? Z.of_nat (List.length questions) then
    let selected_option := form_option in
    q <- getitem questions current_question ;;
    let correct_option := correct_key (options q) (answer q) in
    session <-
      (if option_eqb selected_option correct_option then
         session <- incr_score session ;;
         append_answer {| question := q; correct := true;
                          selected_option := selected_option |} session
       else
         append_answer {| question := q; correct := false;
                          selected_option := selected_option |} session) ;;
    session <- incr_current_question session ;;
    Ok (session, redirect "test")
  else Ok (session, redirect "test").

Definition result (session : Session) : Response :=
  let score := get_default (score session) 0 in
  let answers := get_default (answers session) [] in
  let incorrect_answers := filter (fun answer => negb (correct answer)) answers in
  render_result score incorrect_answers.

(** A run of submissions, one form value per request. *)
Fixpoint submissions (forms : list (option string)) (session : Session)
  : outcome Session :=
  match forms with
  | [] => Ok session
  | f :: rest =>
      r <- submit f session ;;
      submissions rest (fst r)
  end.

End App.

(** ** Notions the properties are stated with *)

Module Spec.

Import DockerV1.

(** An entry the validation loop lets through. *)
Definition accepted (py_repr : jvalue -> string) (it : jvalue) : bool :=
  match validate_entry py_repr 0 it with
  | Ok _ => true
  | Raise _ => false
  end.

(** The question field of an entry is text, or absent or otherwise falsy:
    what [question_text] can strip. *)
Definition question_is_text (it : jvalue) : bool :=
  match it with
  | JDict d =>
      match question_text d with
      | Ok _ => true
      | Raise _ => false
      end
  | _ => true
  end.

(** Every entry of the question array of [doc] carries, under ["a"], an
    answer index in the 0-3 form. *)
Definition answers_in_0_3 (py_repr : jvalue -> string) (doc : jvalue) : bool :=
  match question_array doc with
  | JList arr =>
      forallb (fun it =>
                 match it with
                 | JDict d =>
                     match answer_int py_repr (get d "a") with
                     | Some n => (0 <=? n) && (n <=? 3)
                     | None => false
                     end
                 | _ => false
                 end) arr
  | _ => false
  end.

(** The table as the schema and the import keep it: [id] is a key, and no
    row holds the JSON [null] as its document. *)
Definition table_ok (db : list Quiz) : Prop :=
  NoDup (map id db) /\ Forall (fun r => json r <> JNull) db.

(** [needle] occurs in [hay], letter case aside. *)
Definition ci_substring (needle hay : string) : Prop :=
  exists pre post, lower hay = pre ++ lower needle ++ post.

(** No character of [s] is special in a [LIKE] pattern. *)
Fixpoint plain (s : string) : bool :=
  match s with
  | String c s' =>
      negb (Ascii.eqb c "%") && negb (Ascii.eqb c "_")
      && negb (Ascii.eqb c "\") && plain s'
  | EmptyString => true
  end.

(** [",".join(l)] *)
Fixpoint join_commas (l : list string) : string :=
  match l with
  | [] => ""
  | [x] => x
  | x :: rest => x ++ "," ++ join_commas rest
  end.

(** No comma occurs in [s]. *)
Fixpoint comma_free (s : string) : bool :=
  match s with
  | String c s' => negb (Ascii.eqb c ",") && comma_free s'
  | EmptyString => true
  end.

(** The number of rows of [rows] whose skill is [k]. *)
Definition count_skill (k : option string) (rows : list Quiz) : Z :=
  Z.of_nat (List.length (filter (fun r => opt_eqb (skill r) k) rows)).

(** The count a summary holds for the skill [k]: 0 when it has no entry. *)
Definition count_in (k : option string) (summary : list (option string * Z)) : Z :=
  fold_right (fun p s => if opt_eqb (fst p) k then snd p + s else s) 0 summary.

(** [a] may come before [b] in a listing: its skill sorts first (NULLs
    last), or the skills are equal and [a] is not the older one. *)
Definition listing_before (a b : Quiz) : Prop :=
  skill_compare (skill a) (skill b) = Lt
  \/ (skill a = skill b /\ created_at b <= created_at a).

(** The detail of the rejection of a document that holds no question array. *)
Definition invalid_json : string :=
  "Invalid JSON: must be an array or {" ++ dquote ++ "questions" ++ dquote
  ++ ": [...]}".

(** The log entry [submit] writes for the question [q] and the form value [f]. *)
Definition graded (q : App.Question) (f : option string) : App.Answer :=
  {| App.question := q;
     App.correct :=
       App.option_eqb f (App.correct_key (App.options q) (App.answer q));
     App.selected_option := f |}.

(** The number of entries of a log that are marked correct. *)
Definition points_of (log : list App.Answer) : Z :=
  Z.of_nat (List.length (filter App.correct log)).

(** The state of an attempt in progress: the four keys are set, the cursor
    is within the sampled sequence or just past it, one log entry was written
    per question answered, and the score counts the entries logged as
    correct. *)
Definition attempt_inv (session : App.Session) : Prop :=
  exists questions cursor points log,
    session = {| App.questions := Some questions;
                 App.current_question := Some cursor;
                 App.score := Some points;
                 App.answers := Some log |}
    /\ 0 <= cursor <= Z.of_nat (List.length questions)
    /\ Z.of_nat (List.length log) = cursor
    /\ 0 <= points
    /\ points
       + Z.of_nat (List.length (filter (fun a => negb (App.correct a)) log))
       = cursor.

End Spec.

(** ** Sample inputs, for the instances below *)

Module Samples.

Import DockerV1.

(** Renderings for the instances; the sample documents hold no float,
    list or dict where [str] is taken. *)
Definition py_repr (_ : jvalue) : string := "".
Definition adapt_text (_ : jvalue) : option string := None.
Definition isoformat (_ : Z) : string := "1970-01-01T00:00:00".

(** [[{"q": "2 + 2 = ?", "options": ["1", "2", "3", "4"], "a": 4}]] *)
Definition doc_one_based : jvalue :=
  JList [JDict [("q", JStr "2 + 2 = ?");
                ("options", JList [JStr "1"; JStr "2"; JStr "3"; JStr "4"]);
                ("a", JInt 4)]].

Definition payload_of (doc : jvalue) : ImportPayload.t :=
  {| ImportPayload.json := doc;
     ImportPayload.skill := None;
     ImportPayload.difficulty := None;
     ImportPayload.yoe := None |}.

(** The row the import of [doc_one_based] stores under the id ["q-1"]. *)
Definition row_one_based : Quiz :=
  {| id := "q-1"; test_name := "Custom General"; skill := Some "General";
     difficulty := Some "Mixed"; yoe := Some "N/A"; question_count := 1;
     json := doc_one_based;
     status := "published"; created_at := 0; updated_at := 0 |}.

(** The entries [normalize_and_validate] computes from [doc_one_based]. *)
Definition items_one_based : list item :=
  [{| q := "2 + 2 = ?"; options := ["1"; "2"; "3"; "4"]; correct := 3 |}].

Definition response_one_based : ImportResponse :=
  {| import_ok := true;
     import_id := "q-1";
     import_url := "http://localhost:8080/quizzes/q-1.json";
     import_meta := {| meta_test_name := JStr "Custom General";
                       meta_skill := "General";
                       meta_difficulty := "Mixed";
                       meta_yoe := "N/A";
                       meta_count := 1 |} |}.

(** An entry with its options under the keys ["1"] to ["3"] and none under
    ["4"]. *)
Definition entry_without_4 : list (string * jvalue) :=
  [("question", JStr "2 + 2 = ?"); ("1", JStr "1"); ("2", JStr "2");
   ("3", JStr "3"); ("a", JInt 1)].

(** The questions of [doc_one_based], in an object whose ["meta"] is text. *)
Definition object_with_text_meta : list (string * jvalue) :=
  [("questions", doc_one_based); ("meta", JStr "draft")].

(** The questions of [doc_one_based], under a test name of blanks. *)
Definition doc_blank_name : jvalue :=
  JDict [("Test Name", JStr "  "); ("questions", doc_one_based)].

(** A bank entry whose answer text is none of its option texts. *)
Definition question_without_key : App.Question :=
  {| App.options := [("a", "Paris"); ("b", "Rome"); ("c", "Oslo"); ("d", "Bern")];
     App.answer := "Berlin" |}.

(** A bank entry whose answer text is the text of option ["b"]. *)
Definition question_b : App.Question :=
  {| App.options := [("a", "Paris"); ("b", "Rome"); ("c", "Oslo"); ("d", "Bern")];
     App.answer := "Rome" |}.

Definition bank : list App.Question :=
  [question_b; question_without_key; question_b; question_b; question_b;
   question_without_key].

Definition empty_session : App.Session :=
  {| App.questions := None; App.current_question := None;
     App.score := None; App.answers := None |}.

(** An attempt on one sampled question, none answered yet. *)
Definition fresh_attempt (question : App.Question) : App.Session :=
  {| App.questions := Some [question]; App.current_question := Some 0;
     App.score := Some 0; App.answers := Some [] |}.

End Samples.

(** ** Properties of the quiz API *)

Import Spec.

Import DockerV1.

Lemma bind_Ok {A B : Type} (m : outcome A) (k : A -> outcome B) (b : B) :
  bind m k = Ok b -> exists a, m = Ok a /\ k a = Ok b.
Proof.
  destruct m as [a | e]; simpl; intros H; [ eauto | discriminate ].
Qed.

Lemma shift_one_based_range (n : Z) :
  (0 <=? shift_one_based n) && (shift_one_based n <? 4) = true <-> 0 <= n <= 4.
Proof.
  unfold shift_one_based.
  destruct ((1 <=? n) && (n <=? 4)) eqn:E; lia.
Qed.

Section Validation.

Variable py_repr : jvalue -> string.

(** What an accepted entry looks like: an object with a question text, four
    option strings none of which is blank, and an answer that reads as an
    integer from 0 to 4. *)
Lemma validate_entry_Ok (i : Z) (it : jvalue) (x : item) :
  validate_entry py_repr i it = Ok x ->
  exists d n,
    it = JDict d
    /\ question_text d = Ok (q x) /\ q x <> ""%string
    /\ options x = option_strings py_repr d
    /\ List.length (options x) = 4%nat
    /\ existsb blank (options x) = false
    /\ answer_int py_repr (get d "a") = Some n
    /\ correct x = shift_one_based n
    /\ 0 <= correct x <= 3.
Proof.
  unfold validate_entry. intros H.
  destruct it as [ | | | | | | d]; try discriminate.
  apply bind_Ok in H. destruct H as (qt & Hq & H).
  destruct (qt =? "")%string eqn:Hne; [ discriminate | ].
  destruct (negb (List.length (option_strings py_repr d) =? 4)%nat) eqn:Hlen;
    [ discriminate | ].
  destruct (existsb blank (option_strings py_repr d)) eqn:Hblank;
    [ discriminate | ].
  assert (Hn : exists n, answer_int py_repr (get d "a") = Some n
               /\ (0 <=? shift_one_based n) && (shift_one_based n <? 4) = true
               /\ x = {| q := qt; options := option_strings py_repr d;
                         correct := shift_one_based n |}).
  { destruct (get d "a") as [ | b | n | f | s | l | d'] eqn:Ha; try discriminate;
      try (destruct s; [ discriminate | ]);
      (destruct (answer_int py_repr _) as [n' | ] eqn:Hint; [ | discriminate ];
       destruct ((0 <=? shift_one_based n') && (shift_one_based n' <? 4)) eqn:Hr;
       simpl in H; [ | discriminate ];
       injection H as <-; exists n'; auto). }
  destruct Hn as (n & Hint & Hr & ->). simpl.
  exists d, n. repeat split; auto.
  - apply String.eqb_neq. exact Hne.
  - apply negb_false_iff, Nat.eqb_eq in Hlen. exact Hlen.
  - apply andb_prop in Hr. lia.
  - apply andb_prop in Hr. lia.
Qed.

Lemma validate_loop_Ok (arr : list jvalue) :
  forall (i : Z) (acc items : list item),
    validate_loop py_repr i acc arr = Ok items ->
    exists xs,
      items = (acc ++ xs)%list
      /\ Forall2 (fun it x => exists j, validate_entry py_repr j it = Ok x) arr xs.
Proof.
  induction arr as [ | it rest IH]; simpl; intros i acc items H.
  - injection H as <-. exists []. split; [ now rewrite app_nil_r | constructor ].
  - apply bind_Ok in H. destruct H as (x & Hx & H).
    apply IH in H. destruct H as (xs & -> & Hall).
    exists (x :: xs). split.
    + now rewrite <- app_assoc.
    + constructor; eauto.
Qed.

(** What an accepted document looks like. *)
Lemma normalize_and_validate_Ok (root : jvalue) (items : list item) (name : jvalue) :
  normalize_and_validate py_repr root = Ok (items, name) ->
  exists arr,
    question_array root = JList arr
    /\ arr <> []
    /\ Forall2 (fun it x => exists j, validate_entry py_repr j it = Ok x) arr items
    /\ detect_test_name root = Ok name.
Proof.
  unfold normalize_and_validate. intros H.
  destruct (question_array root) as [ | | | | | [ | it rest] | ] eqn:Harr;
    try discriminate.
  apply bind_Ok in H. destruct H as (xs & Hloop & H).
  apply bind_Ok in H. destruct H as (t & Hname & H).
  injection H as <- <-.
  apply validate_loop_Ok in Hloop. destruct Hloop as (ys & -> & Hall).
  exists (it :: rest). repeat split; auto. discriminate.
Qed.

(** C1. Whenever [normalize_and_validate] returns, the entries it returns
    are as many as the input question array holds, and the correct-answer
    index of each lies between 0 and 3. *)
Theorem validation_count_and_index_range
    (root : jvalue) (items : list item) (test_name : jvalue) :
  normalize_and_validate py_repr root = Ok (items, test_name) ->
  exists arr,
    question_array root = JList arr
    /\ List.length items = List.length arr
    /\ Forall (fun x => 0 <= correct x <= 3) items.
Proof.
  intros H. apply normalize_and_validate_Ok in H.
  destruct H as (arr & Harr & _ & Hall & _).
  exists arr. split; [ exact Harr | ]. split.
  - symmetry. eapply Forall2_length. exact Hall.
  - clear Harr. induction Hall as [ | it x arr' items' (j & Hx) _ IH];
      constructor; auto.
    apply validate_entry_Ok in Hx. destruct Hx as (d & n & Hx). tauto.
Qed.

(** The count [api_validate] reports is that length. *)
Lemma api_validate_count (payload : ImportPayload.t) (resp : ValidateResponse) :
  api_validate py_repr payload = Ok resp ->
  exists arr,
    question_array (ImportPayload.json payload) = JList arr
    /\ validate_question_count resp = Z.of_nat (List.length arr).
Proof.
  unfold api_validate. intros H.
  apply bind_Ok in H. destruct H as ([items name] & Hv & H).
  injection H as <-. simpl.
  apply normalize_and_validate_Ok in Hv.
  destruct Hv as (arr & Harr & _ & Hall & _).
  exists arr. split; [ exact Harr | ].
  now rewrite (Forall2_length Hall).
Qed.

End Validation.

Lemma startswith_spec (p s : string) :
  startswith p s = true <-> exists r, s = p ++ r.
Proof.
  revert s. induction p as [ | a p IH]; intros s; simpl.
  - split; eauto.
  - destruct s as [ | b s].
    + split; [ discriminate | intros (r & Hr); discriminate ].
    + rewrite andb_true_iff, Ascii.eqb_eq, IH. split.
      * intros (-> & r & ->). eauto.
      * intros (r & Hr). injection Hr as -> ->. eauto.
Qed.

Section ImportRoute.

Variable ADMIN_TOKEN : string.
Variable PUBLIC_BASE_URL : string.
Variable py_repr : jvalue -> string.
Variable adapt_text : jvalue -> option string.

(** [require_admin] passes on one header value only. *)
Lemma require_admin_Ok (authorization : option string) (u : unit) :
  require_admin ADMIN_TOKEN authorization = Ok u <->
  authorization = Some ("Bearer " ++ ADMIN_TOKEN).
Proof.
  unfold require_admin. split.
  - intros H. destruct authorization as [a | ]; [ | discriminate H ].
    destruct (a =? "")%string; cbn [orb negb] in H; [ discriminate H | ].
    destruct (startswith "Bearer " a) eqn:Hs; cbn [negb] in H; [ | discriminate H ].
    apply startswith_spec in Hs. destruct Hs as (r & ->). simpl in H.
    destruct (r =? ADMIN_TOKEN)%string eqn:Hr; simpl in H; [ | discriminate H ].
    apply String.eqb_eq in Hr. now subst r.
  - intros ->. simpl. rewrite String.eqb_refl. simpl. now destruct u.
Qed.

(** On every other header value, and without a header, it raises 401 or 403. *)
Lemma require_admin_Raise (authorization : option string) :
  authorization <> Some ("Bearer " ++ ADMIN_TOKEN) ->
  exists code detail,
    require_admin ADMIN_TOKEN authorization = Raise (HTTPException code detail)
    /\ (code = 401 \/ code = 403).
Proof.
  intros Hne. unfold require_admin.
  destruct authorization as [a | ]; [ | eauto 6 ].
  destruct (a =? "")%string; cbn [orb negb]; [ eauto 6 | ].
  destruct (startswith "Bearer " a) eqn:Hs; cbn [negb]; [ | eauto 6 ].
  apply startswith_spec in Hs. destruct Hs as (r & ->). simpl.
  destruct (r =? ADMIN_TOKEN)%string eqn:Hr; simpl; [ | eauto 6 ].
  apply String.eqb_eq in Hr. now subst r.
Qed.

(** What a successful import has done. *)
Lemma api_import_Ok (payload : ImportPayload.t) (authorization : option string)
    (qid : string) (now : Z) (db db' : list Quiz) (resp : ImportResponse) :
  api_import ADMIN_TOKEN PUBLIC_BASE_URL py_repr adapt_text
    payload authorization qid now db = (Ok resp, db') ->
  authorization = Some ("Bearer " ++ ADMIN_TOKEN)
  /\ exists items name row,
      normalize_and_validate py_repr (ImportPayload.json payload) = Ok (items, name)
      /\ db' = (db ++ [row])%list
      /\ existsb (fun r => (id r =? qid)%string) db = false
      /\ id row = qid
      /\ question_count row = Z.of_nat (List.length items)
      /\ json row = ImportPayload.json payload
      /\ status row = "published"
      /\ import_id resp = qid
      /\ meta_count (import_meta resp) = Z.of_nat (List.length items).
Proof.
  unfold api_import.
  match goal with |- (match ?run with _ => _ end) = _ -> _ =>
    destruct run as [[db1 r1] | e] eqn:Hrun end; [ | discriminate ].
  intros H. injection H as -> ->.
  apply bind_Ok in Hrun. destruct Hrun as (u & Hadm & Hrun).
  apply require_admin_Ok in Hadm. split; [ exact Hadm | ].
  apply bind_Ok in Hrun. destruct Hrun as ([items name] & Hv & Hrun).
  apply bind_Ok in Hrun. destruct Hrun as (sk & _ & Hrun).
  apply bind_Ok in Hrun. destruct Hrun as (nm & _ & Hrun).
  apply bind_Ok in Hrun. destruct Hrun as (db2 & Hadd & Hrun).
  injection Hrun as <- <-.
  unfold session_add in Hadd. simpl in Hadd.
  destruct (existsb (fun r => (id r =? qid)%string) db) eqn:Hfresh;
    [ discriminate | ].
  injection Hadd as <-.
  eexists items, name, _. repeat split; eauto.
Qed.

(** A request that raises leaves the table as it was. *)
Lemma api_import_Raise (payload : ImportPayload.t) (authorization : option string)
    (qid : string) (now : Z) (db db' : list Quiz) (e : exn) :
  api_import ADMIN_TOKEN PUBLIC_BASE_URL py_repr adapt_text
    payload authorization qid now db = (Raise e, db') ->
  db' = db.
Proof.
  unfold api_import.
  match goal with |- (match ?run with _ => _ end) = _ -> _ =>
    destruct run as [[db1 r1] | e1] end; intros H; [ discriminate | ].
  now injection H as _ <-.
Qed.

(** C3. The import succeeds only on the header ["Bearer " ++ ADMIN_TOKEN],
    and then the table has gained exactly one row; on any other header,
    and without one, it raises 401 or 403 and the table is unchanged. *)
Theorem import_requires_exact_bearer_token
    (payload : ImportPayload.t) (authorization : option string)
    (qid : string) (now : Z) (db : list Quiz) :
  (forall resp db',
      api_import ADMIN_TOKEN PUBLIC_BASE_URL py_repr adapt_text
        payload authorization qid now db = (Ok resp, db') ->
      authorization = Some ("Bearer " ++ ADMIN_TOKEN)
      /\ exists row, db' = (db ++ [row])%list)
  /\ (authorization <> Some ("Bearer " ++ ADMIN_TOKEN) ->
      exists code detail,
        api_import ADMIN_TOKEN PUBLIC_BASE_URL py_repr adapt_text
          payload authorization qid now db
        = (Raise (HTTPException code detail), db)
        /\ (code = 401 \/ code = 403)).
Proof.
  split.
  - intros resp db' H. apply api_import_Ok in H.
    destruct H as (Hauth & items & name & row & _ & Hdb & _).
    split; [ exact Hauth | eauto ].
  - intros Hne. apply require_admin_Raise in Hne.
    destruct Hne as (code & detail & Hadm & Hcode).
    exists code, detail. split; [ | exact Hcode ].
    unfold api_import. rewrite Hadm. reflexivity.
Qed.

(** C6. The row an import stores carries, as its [question_count], the
    number of entries [normalize_and_validate] produced from the imported
    document. *)
Theorem import_question_count
    (payload : ImportPayload.t) (authorization : option string)
    (qid : string) (now : Z) (db db' : list Quiz) (resp : ImportResponse) :
  api_import ADMIN_TOKEN PUBLIC_BASE_URL py_repr adapt_text
    payload authorization qid now db = (Ok resp, db') ->
  exists items name row,
    normalize_and_validate py_repr (ImportPayload.json payload) = Ok (items, name)
    /\ db' = (db ++ [row])%list
    /\ question_count row = Z.of_nat (List.length items).
Proof.
  intros H. apply api_import_Ok in H.
  destruct H as (_ & items & name & row & Hv & Hdb & _ & _ & Hcount & _).
  exists items, name, row. auto.
Qed.

End ImportRoute.

Section StoredDocument.

Variable ADMIN_TOKEN : string.
Variable PUBLIC_BASE_URL : string.
Variable py_repr : jvalue -> string.
Variable adapt_text : jvalue -> option string.

(** C2, as amended. An import stores the imported document as it came, raw
    answer indices included; it is in the entries [normalize_and_validate]
    computes from it that an index read as 1 to 4 is lowered by one, an
    index read as 0 is kept, and every index lies between 0 and 3. *)
Theorem import_stores_document_verbatim
    (payload : ImportPayload.t) (authorization : option string)
    (qid : string) (now : Z) (db db' : list Quiz) (resp : ImportResponse) :
  api_import ADMIN_TOKEN PUBLIC_BASE_URL py_repr adapt_text
    payload authorization qid now db = (Ok resp, db') ->
  exists items name row arr,
    db' = (db ++ [row])%list
    /\ json row = ImportPayload.json payload
    /\ normalize_and_validate py_repr (ImportPayload.json payload) = Ok (items, name)
    /\ question_array (ImportPayload.json payload) = JList arr
    /\ Forall2 (fun it x =>
                  exists d n,
                    it = JDict d
                    /\ answer_int py_repr (get d "a") = Some n
                    /\ correct x = (if (1 <=? n) && (n <=? 4) then n - 1 else n)
                    /\ 0 <= correct x <= 3) arr items.
Proof.
  intros H. apply api_import_Ok in H.
  destruct H as (_ & items & name & row & Hv & Hdb & _ & _ & _ & Hjson & _).
  destruct (normalize_and_validate_Ok _ _ _ _ Hv) as (arr & Harr & _ & Hall & _).
  exists items, name, row, arr. repeat split; auto.
  clear Harr Hv. induction Hall as [ | it x arr' items' (j & Hx) _ IH];
    constructor; auto.
  apply validate_entry_Ok in Hx.
  destruct Hx as (d & n & -> & _ & _ & _ & _ & _ & Hint & Hc & Hr).
  exists d, n. repeat split; auto; lia.
Qed.

End StoredDocument.

(** C2, as stated, fails: the document of the row stored by this import
    still carries the raw answer index 4. *)
Lemma import_keeps_raw_answer_index :
  exists resp row,
    api_import "change-me" "http://localhost:8080" Samples.py_repr Samples.adapt_text
      (Samples.payload_of Samples.doc_one_based)
      (Some "Bearer change-me") "q-1" 0 [] = (Ok resp, [row])
    /\ json row = Samples.doc_one_based
    /\ answers_in_0_3 Samples.py_repr (json row) = false.
Proof.
  eexists. eexists. split; [ reflexivity | split; reflexivity ].
Qed.

(** An instance: the import of [Samples.doc_one_based] into the empty table. *)
Lemma import_stores_document_verbatim_witness :
  exists items name row arr,
    [Samples.row_one_based] = ([] ++ [row])%list
    /\ json row = Samples.doc_one_based
    /\ normalize_and_validate Samples.py_repr Samples.doc_one_based = Ok (items, name)
    /\ question_array Samples.doc_one_based = JList arr
    /\ Forall2 (fun it x =>
                  exists d n,
                    it = JDict d
                    /\ answer_int Samples.py_repr (get d "a") = Some n
                    /\ correct x = (if (1 <=? n) && (n <=? 4) then n - 1 else n)
                    /\ 0 <= correct x <= 3) arr items.
Proof.
  eapply (import_stores_document_verbatim
            "change-me" "http://localhost:8080" Samples.py_repr Samples.adapt_text
            (Samples.payload_of Samples.doc_one_based)
            (Some "Bearer change-me") "q-1" 0 []).
  reflexivity.
Defined.

(** An instance: the one entry of [Samples.doc_one_based], with index 3. *)
Lemma validation_count_and_index_range_witness :
  normalize_and_validate Samples.py_repr Samples.doc_one_based
  = Ok (Samples.items_one_based, JStr "")
  /\ exists arr,
      question_array Samples.doc_one_based = JList arr
      /\ List.length Samples.items_one_based = List.length arr
      /\ Forall (fun x => 0 <= correct x <= 3) Samples.items_one_based.
Proof.
  split; [ reflexivity | ].
  apply (validation_count_and_index_range Samples.py_repr Samples.doc_one_based
           Samples.items_one_based (JStr "")).
  reflexivity.
Defined.

(** An instance: a header with two blanks after [Bearer] is refused. *)
Lemma import_requires_exact_bearer_token_witness :
  (forall resp db',
      api_import "change-me" "http://localhost:8080" Samples.py_repr Samples.adapt_text
        (Samples.payload_of Samples.doc_one_based) (Some "Bearer  change-me") "q-1" 0 []
      = (Ok resp, db') ->
      Some "Bearer  change-me" = Some ("Bearer " ++ "change-me")
      /\ exists row, db' = ([] ++ [row])%list)
  /\ exists code detail,
      api_import "change-me" "http://localhost:8080" Samples.py_repr Samples.adapt_text
        (Samples.payload_of Samples.doc_one_based) (Some "Bearer  change-me") "q-1" 0 []
      = (Raise (HTTPException code detail), [])
      /\ (code = 401 \/ code = 403).
Proof.
  destruct (import_requires_exact_bearer_token
              "change-me" "http://localhost:8080" Samples.py_repr Samples.adapt_text
              (Samples.payload_of Samples.doc_one_based)
              (Some "Bearer  change-me") "q-1" 0 []) as [Hok Herr].
  split; [ exact Hok | ].
  apply Herr. discriminate.
Defined.

(** An instance: the row stored for [Samples.doc_one_based] counts one question. *)
Lemma import_question_count_witness :
  api_import "change-me" "http://localhost:8080" Samples.py_repr Samples.adapt_text
    (Samples.payload_of Samples.doc_one_based) (Some "Bearer change-me") "q-1" 0 []
  = (Ok Samples.response_one_based, [Samples.row_one_based])
  /\ exists items name row,
      normalize_and_validate Samples.py_repr
        (ImportPayload.json (Samples.payload_of Samples.doc_one_based)) = Ok (items, name)
      /\ [Samples.row_one_based] = ([] ++ [row])%list
      /\ question_count row = Z.of_nat (List.length items).
Proof.
  split; [ reflexivity | ].
  apply (import_question_count
           "change-me" "http://localhost:8080" Samples.py_repr Samples.adapt_text
           (Samples.payload_of Samples.doc_one_based)
           (Some "Bearer change-me") "q-1" 0 [] [Samples.row_one_based]
           Samples.response_one_based).
  reflexivity.
Defined.

Section FirstDefect.

Variable py_repr : jvalue -> string.

(** The outcome of an entry does not depend on its position, but for the
    position the message names: an entry is accepted at every position, or
    refused at every position with the same text after ["Q<i>: "], or its
    question field is no text and [strip] raises. *)
Lemma validate_entry_cases (it : jvalue) :
  (exists x, forall i, validate_entry py_repr i it = Ok x)
  \/ (exists msg, forall i,
         validate_entry py_repr i it = Raise (HTTPException 400 (Q i msg)))
  \/ (question_is_text it = false
      /\ forall i, validate_entry py_repr i it = Raise AttributeError).
Proof.
  unfold validate_entry, question_is_text.
  destruct it as [ | | | | | | d]; try (right; left; eauto; fail).
  destruct (question_text d) as [qt | e] eqn:Hq; cbn [bind].
  - destruct (qt =? "")%string; [ right; left; eauto | ].
    destruct (negb (List.length (option_strings py_repr d) =? 4)%nat);
      [ right; left; eauto | ].
    destruct (existsb blank (option_strings py_repr d)); [ right; left; eauto | ].
    destruct (get d "a") as [ | b | n | f | s | l | d'];
      try (right; left; eauto; fail);
      try (destruct s; [ right; left; eauto; fail | ]);
      (destruct (answer_int py_repr _) as [n' | ]; [ | right; left; eauto ];
       destruct (negb ((0 <=? shift_one_based n') && (shift_one_based n' <? 4)));
       [ right; left; eauto | left; eauto ]).
  - right. right. unfold question_text in Hq.
    destruct (py_or (py_or (get d "q") (get d "question")) (JStr ""));
      try discriminate Hq; injection Hq as <-; auto.
Qed.

Lemma accepted_Ok (it : jvalue) :
  accepted py_repr it = true ->
  exists x, forall i, validate_entry py_repr i it = Ok x.
Proof.
  unfold accepted. intros H.
  destruct (validate_entry_cases it) as [Hok | [(msg & Hm) | (_ & Hc)]].
  - exact Hok.
  - rewrite Hm in H. discriminate H.
  - rewrite Hc in H. discriminate H.
Qed.

(** Which entries the loop lets through: the defects the messages name all
    make [accepted] false. *)
Lemma accepted_inv (it : jvalue) :
  accepted py_repr it = true ->
  exists d qt n,
    it = JDict d
    /\ question_text d = Ok qt /\ qt <> ""%string
    /\ List.length (option_strings py_repr d) = 4%nat
    /\ existsb blank (option_strings py_repr d) = false
    /\ get d "a" <> JNull /\ get d "a" <> JStr ""
    /\ answer_int py_repr (get d "a") = Some n
    /\ 0 <= n <= 4.
Proof.
  intros H. destruct (accepted_Ok it H) as (x & Hx). specialize (Hx 0).
  destruct (validate_entry_Ok _ _ _ _ Hx)
    as (d & n & -> & Hq & Hne & Ho & Hlen & Hb & Hint & Hc & Hr).
  exists d, (q x), n. rewrite <- Ho. repeat split; auto.
  - intros Ha. unfold validate_entry in Hx. rewrite Hq in Hx. cbn [bind] in Hx.
    apply String.eqb_neq in Hne. rewrite Hne, <- Ho, Hlen, Hb, Ha in Hx.
    discriminate Hx.
  - intros Ha. unfold validate_entry in Hx. rewrite Hq in Hx. cbn [bind] in Hx.
    apply String.eqb_neq in Hne. rewrite Hne, <- Ho, Hlen, Hb, Ha in Hx.
    discriminate Hx.
  - rewrite Hc in Hr. apply shift_one_based_range. lia.
  - rewrite Hc in Hr. apply shift_one_based_range. lia.
Qed.

(** The loop stops at the first entry that is not accepted, with that
    entry's exception at that entry's position. *)
Lemma validate_loop_first_defect (pre : list jvalue) :
  forall (i : Z) (acc : list item) (bad : jvalue) (post : list jvalue) (e : exn),
    Forall (fun it => accepted py_repr it = true) pre ->
    validate_entry py_repr (i + Z.of_nat (List.length pre)) bad = Raise e ->
    validate_loop py_repr i acc (pre ++ bad :: post) = Raise e.
Proof.
  induction pre as [ | it pre IH]; intros i acc bad post e Hpre Hbad.
  - simpl in *. rewrite Z.add_0_r in Hbad. now rewrite Hbad.
  - inversion Hpre as [ | ? ? Hit Hrest]; subst.
    destruct (accepted_Ok it Hit) as (x & Hx).
    cbn [app validate_loop]. rewrite Hx. cbn [bind].
    apply IH; [ exact Hrest | ].
    replace (i + 1 + Z.of_nat (List.length pre))
      with (i + Z.of_nat (List.length (it :: pre))); [ exact Hbad | ].
    cbn [List.length]. lia.
Qed.

(** Where the question fields are text: the batch is refused at the first
    entry that is not accepted, with status 400 and a message that starts
    with that entry's 1-based position. *)
Lemma first_defect_rejected_at_position
    (root : jvalue) (pre : list jvalue) (bad : jvalue) (post : list jvalue) :
  question_array root = JList (pre ++ bad :: post) ->
  Forall (fun it => accepted py_repr it = true) pre ->
  accepted py_repr bad = false ->
  question_is_text bad = true ->
  exists msg,
    normalize_and_validate py_repr root
    = Raise (HTTPException 400 (Q (Z.of_nat (List.length pre) + 1) msg)).
Proof.
  intros Harr Hpre Hbad Htext.
  destruct (validate_entry_cases bad) as [(x & Hx) | [(msg & Hm) | (Hc & _)]].
  - unfold accepted in Hbad. rewrite Hx in Hbad. discriminate Hbad.
  - exists msg. unfold normalize_and_validate. rewrite Harr.
    destruct (pre ++ bad :: post)%list as [ | it rest] eqn:Hl.
    + destruct pre; discriminate Hl.
    + rewrite <- Hl.
      rewrite (validate_loop_first_defect pre 1 [] bad post
                 (HTTPException 400 (Q (Z.of_nat (List.length pre) + 1) msg)) Hpre).
      * reflexivity.
      * rewrite Hm. do 3 f_equal. lia.
  - rewrite Hc in Htext. discriminate Htext.
Qed.

(** C5, the failing input. The one entry of this document has three
    options, and its question field is the number 5: [strip] raises
    [AttributeError], and no message with the entry's position is produced. *)
Theorem validation_crashes_on_non_text_question :
  normalize_and_validate py_repr
    (JList [JDict [("q", JInt 5);
                   ("options", JList [JStr "a"; JStr "b"; JStr "c"]);
                   ("a", JInt 1)]])
  = Raise AttributeError.
Proof.
  reflexivity.
Qed.

End FirstDefect.

(** *** Retrieval of one quiz *)

Lemma filter_none {A : Type} (f : A -> bool) (l : list A) :
  (forall x, In x l -> f x = false) -> filter f l = [].
Proof.
  induction l as [ | y l IH]; intros H; simpl; [ reflexivity | ].
  rewrite (H y (or_introl eq_refl)). apply IH. intros x Hx. apply H. now right.
Qed.

(** Under the key constraint the [SELECT] of [get_quiz_json] finds the one
    published row with the identifier. *)
Lemma select_by_id (db : list Quiz) (r : Quiz) :
  NoDup (map id db) -> In r db -> published r = true ->
  filter (fun x => (id x =? id r)%string && published x) db = [r].
Proof.
  induction db as [ | x db IH]; intros Hnd Hin Hpub; [ destruct Hin | ].
  simpl in Hnd. inversion Hnd as [ | ? ? Hx Hnd']; subst.
  destruct Hin as [-> | Hin].
  - simpl. rewrite String.eqb_refl, Hpub. simpl. f_equal.
    apply filter_none. intros y Hy.
    destruct (id y =? id r)%string eqn:E; [ | reflexivity ].
    apply String.eqb_eq in E. exfalso. apply Hx. rewrite <- E. now apply in_map.
  - simpl. destruct (id x =? id r)%string eqn:E.
    + apply String.eqb_eq in E. exfalso. apply Hx. rewrite E. now apply in_map.
    + simpl. now apply IH.
Qed.

(** The empty table is well kept, and every import keeps it so. *)
Lemma table_ok_nil : table_ok [].
Proof.
  split; constructor.
Qed.

Lemma api_import_table_ok
    (ADMIN_TOKEN PUBLIC_BASE_URL : string)
    (py_repr : jvalue -> string) (adapt_text : jvalue -> option string)
    (payload : ImportPayload.t) (authorization : option string)
    (qid : string) (now : Z) (db : list Quiz) :
  table_ok db ->
  table_ok (snd (api_import ADMIN_TOKEN PUBLIC_BASE_URL py_repr adapt_text
                   payload authorization qid now db)).
Proof.
  intros [Hnd Hjson].
  destruct (api_import ADMIN_TOKEN PUBLIC_BASE_URL py_repr adapt_text
              payload authorization qid now db) as [[resp | e] db'] eqn:H; simpl.
  - apply api_import_Ok in H.
    destruct H as (_ & items & name & row & Hv & -> & Hfresh & Hid & _ & Hj & _).
    split.
    + rewrite map_app. simpl.
      apply Permutation_NoDup with (l := id row :: map id db).
      * apply Permutation_cons_append.
      * constructor; [ | exact Hnd ].
        intros Hin. apply in_map_iff in Hin. destruct Hin as (r & Hr & Hin).
        assert (Hex : existsb (fun r => (id r =? qid)%string) db = true).
        { apply existsb_exists. exists r. split; [ exact Hin | ].
          apply String.eqb_eq. congruence. }
        congruence.
    + apply Forall_app. split; [ exact Hjson | ]. constructor; [ | constructor ].
      rewrite Hj. intros Hnull.
      apply normalize_and_validate_Ok in Hv. destruct Hv as (arr & Harr & _).
      rewrite Hnull in Harr. discriminate Harr.
  - apply api_import_Raise in H. subst db'. now split.
Qed.

(** C7. On a table where [id] is a key and no document is the JSON null (the
    empty table is such, and imports keep it so): [get_quiz_json] returns the
    [json] of the published row with the identifier, as stored; and it
    raises the 404 exactly when no published row has the identifier. *)
Theorem get_quiz_json_verbatim_or_not_found (quiz_id : string) (db : list Quiz) :
  table_ok db ->
  (forall r, In r db -> id r = quiz_id -> published r = true ->
             get_quiz_json quiz_id db = Ok (json r))
  /\ (get_quiz_json quiz_id db = Raise (HTTPException 404 "Quiz not found")
      <-> ~ exists r, In r db /\ id r = quiz_id /\ published r = true).
Proof.
  intros [Hnd Hjson].
  assert (Hfound : forall r, In r db -> id r = quiz_id -> published r = true ->
                             get_quiz_json quiz_id db = Ok (json r)).
  { intros r Hin <- Hpub. unfold get_quiz_json.
    rewrite (select_by_id db r Hnd Hin Hpub).
    rewrite Forall_forall in Hjson. specialize (Hjson r Hin).
    destruct (json r); congruence. }
  split; [ exact Hfound | ]. split.
  - intros H404 (r & Hin & Hid & Hpub).
    rewrite (Hfound r Hin Hid Hpub) in H404. discriminate H404.
  - intros Hno. unfold get_quiz_json. rewrite filter_none; [ reflexivity | ].
    intros x Hx.
    destruct (id x =? quiz_id)%string eqn:E; [ | reflexivity ].
    destruct (published x) eqn:Hp; [ | reflexivity ].
    exfalso. apply Hno. exists x. apply String.eqb_eq in E. auto.
Qed.

(** An instance: a table of one row, asked for its id and for another. *)
Lemma get_quiz_json_verbatim_or_not_found_witness :
  table_ok [Samples.row_one_based]
  /\ get_quiz_json "q-1" [Samples.row_one_based] = Ok Samples.doc_one_based
  /\ get_quiz_json "q-2" [Samples.row_one_based]
     = Raise (HTTPException 404 "Quiz not found").
Proof.
  assert (Hok : table_ok [Samples.row_one_based]).
  { split.
    - simpl. constructor; [ intros [] | constructor ].
    - constructor; [ discriminate | constructor ]. }
  split; [ exact Hok | ].
  destruct (get_quiz_json_verbatim_or_not_found "q-1" [Samples.row_one_based] Hok)
    as [Hfound _].
  destruct (get_quiz_json_verbatim_or_not_found "q-2" [Samples.row_one_based] Hok)
    as [_ Hnone].
  split.
  - apply (Hfound Samples.row_one_based); [ left | | ]; reflexivity.
  - apply Hnone. intros (r & [<- | []] & Hid & _). discriminate Hid.
Defined.

(** *** Listing *)

Lemma In_insert_by {A : Type} (le : A -> A -> bool) (x y : A) (l : list A) :
  In y (insert_by le x l) <-> y = x \/ In y l.
Proof.
  induction l as [ | z l IH]; simpl.
  - intuition.
  - destruct (le x z); simpl; [ intuition | ]. rewrite IH. intuition.
Qed.

(** [ORDER BY] rearranges the rows it is given, and no more. *)
Lemma In_order_by {A : Type} (le : A -> A -> bool) (y : A) (l : list A) :
  In y (order_by le l) <-> In y l.
Proof.
  unfold order_by. induction l as [ | x l IH]; simpl; [ tauto | ].
  rewrite In_insert_by, IH. intuition.
Qed.

Lemma append_empty_r (s : string) : s ++ "" = s.
Proof.
  induction s as [ | c s IH]; simpl; [ reflexivity | now rewrite IH ].
Qed.

Lemma append_assoc (a b c : string) : (a ++ b) ++ c = a ++ b ++ c.
Proof.
  induction a as [ | x a IH]; simpl; [ reflexivity | now rewrite IH ].
Qed.

Lemma like_percent_empty (p : string) :
  like (String "%" p) "" = like p "".
Proof.
  simpl. apply orb_false_r.
Qed.

Lemma like_percent_cons (p : string) (x : ascii) (s : string) :
  like (String "%" p) (String x s) = like p (String x s) || like (String "%" p) s.
Proof.
  reflexivity.
Qed.

(** [%] followed by [p] matches the strings that have a suffix [p] matches. *)
Lemma like_percent (p s : string) :
  like (String "%" p) s = true <-> exists a b, s = a ++ b /\ like p b = true.
Proof.
  induction s as [ | x s IH].
  - rewrite like_percent_empty. split.
    + intros H. now exists "", "".
    + intros (a & b & Hab & H). destruct a; [ | discriminate Hab ].
      simpl in Hab. now subst b.
  - rewrite like_percent_cons, orb_true_iff, IH. split.
    + intros [H | (a & b & -> & H)].
      * now exists "", (String x s).
      * now exists (String x a), b.
    + intros (a & b & Hab & H). destruct a as [ | y a].
      * simpl in Hab. subst b. now left.
      * injection Hab as <- ->. right. eauto.
Qed.

(** A character that is not special matches itself. *)
Lemma like_plain_char (c : ascii) (p s : string) :
  plain (String c "") = true ->
  (like (String c p) s = true <-> exists s', s = String c s' /\ like p s' = true).
Proof.
  simpl. rewrite !andb_true_iff, !negb_true_iff. intros [[[H1 H2] H3] _].
  rewrite H1, H2, H3. destruct s as [ | x s].
  - split; [ discriminate | intros (s' & Hs & _); discriminate Hs ].
  - rewrite andb_true_iff, Ascii.eqb_eq. split.
    + intros [-> H]. eauto.
    + intros (s' & Hs & H). injection Hs as -> ->. auto.
Qed.

Lemma like_plain_prefix (lit p s : string) :
  plain lit = true ->
  (like (lit ++ p) s = true <-> exists s', s = lit ++ s' /\ like p s' = true).
Proof.
  revert s. induction lit as [ | c lit IH]; intros s Hplain.
  - simpl. split; [ eauto | intros (s' & -> & H); exact H ].
  - assert (Hc : plain (String c "") = true).
    { simpl in *. rewrite !andb_true_iff in *. tauto. }
    assert (Hlit : plain lit = true).
    { simpl in Hplain. rewrite !andb_true_iff in Hplain. tauto. }
    change (String c lit ++ p) with (String c (lit ++ p)).
    rewrite (like_plain_char c (lit ++ p) s Hc). split.
    + intros (s1 & -> & H). apply (IH s1 Hlit) in H.
      destruct H as (s' & -> & H). now exists s'.
    + intros (s' & -> & H). exists (lit ++ s'). split; [ reflexivity | ].
      apply (IH _ Hlit). eauto.
Qed.

(** The pattern [%v%], for a [v] without special characters, matches the
    strings in which [v] occurs. *)
Lemma like_contains (v s : string) :
  plain v = true ->
  (like ("%" ++ v ++ "%") s = true <-> exists a b, s = a ++ v ++ b).
Proof.
  intros Hplain. change ("%" ++ v ++ "%") with (String "%" (v ++ "%")).
  rewrite like_percent. split.
  - intros (a & b & -> & H). apply (like_plain_prefix v "%" b Hplain) in H.
    destruct H as (s' & -> & _). eauto.
  - intros (a & b & ->). exists a, (v ++ b). split; [ reflexivity | ].
    apply (like_plain_prefix v "%" _ Hplain). exists b. split; [ reflexivity | ].
    apply like_percent. exists b, "". split; [ now rewrite append_empty_r | reflexivity ].
Qed.

Lemma lower_append (a b : string) : lower (a ++ b) = lower a ++ lower b.
Proof.
  induction a as [ | c a IH]; simpl; [ reflexivity | now rewrite IH ].
Qed.

Lemma plain_lower_char (c : ascii) :
  plain (String (lower_char c) "") = plain (String c "").
Proof.
  destruct c as [[] [] [] [] [] [] [] []]; reflexivity.
Qed.

Lemma plain_lower (s : string) : plain (lower s) = plain s.
Proof.
  induction s as [ | c s IH]; [ reflexivity | ].
  change (plain (lower (String c s)))
    with (negb (Ascii.eqb (lower_char c) "%") && negb (Ascii.eqb (lower_char c) "_")
          && negb (Ascii.eqb (lower_char c) "\") && plain (lower s)).
  change (plain (String c s))
    with (negb (Ascii.eqb c "%") && negb (Ascii.eqb c "_")
          && negb (Ascii.eqb c "\") && plain s).
  rewrite IH. pose proof (plain_lower_char c) as H. simpl in H.
  rewrite !andb_true_r in H. now rewrite H.
Qed.

(** [ILIKE] on [%v%], for a [v] without special characters, is the occurrence
    of [v], letter case aside. *)
Lemma ilike_contains (v s : string) :
  plain v = true ->
  (ilike ("%" ++ v ++ "%") s = true <-> ci_substring v s).
Proof.
  intros Hplain. unfold ilike, ci_substring.
  rewrite !lower_append.
  change (lower "%") with "%".
  apply like_contains. now rewrite plain_lower.
Qed.

Lemma substring_char (pre post s : string) (c : ascii) :
  s = pre ++ String c post ->
  existsb (Ascii.eqb c) (list_ascii_of_string s) = true.
Proof.
  revert s. induction pre as [ | x pre IH]; intros s ->; simpl.
  - now rewrite Ascii.eqb_refl.
  - rewrite (IH _ eq_refl). apply orb_true_r.
Qed.

Section Listing.

Variable PUBLIC_BASE_URL : string.
Variable isoformat : Z -> string.

(** The rows of a listing are the rows of the table its [WHERE] clause
    selects. *)
Lemma In_list_quizzes (skill_ difficulty_ search : option string)
    (db : list Quiz) (it : ListItem) :
  In it (items (list_quizzes PUBLIC_BASE_URL isoformat skill_ difficulty_ search db))
  <-> exists r, In r db
                /\ listing_where skill_ difficulty_ search r = true
                /\ it = listing_item PUBLIC_BASE_URL isoformat r.
Proof.
  unfold list_quizzes, listing_rows. simpl. rewrite in_map_iff. split.
  - intros (r & <- & Hr). apply In_order_by, filter_In in Hr. exists r. tauto.
  - intros (r & Hin & Hw & ->). exists r. split; [ reflexivity | ].
    apply In_order_by, filter_In. tauto.
Qed.

(** C8, as amended. Every record of a listing with a skill filter has that
    skill; a record is listed exactly when it is published and passes the
    filters given; and for a search string in which no [%], [_] or backslash
    occurs, a record matches the search exactly when the string occurs,
    letter case aside, in its [test_name] or in its [skill]. *)
Theorem listing_skill_and_search_filters
    (skill_ difficulty_ search : option string) (db : list Quiz) :
  (forall v it,
      given skill_ = Some v ->
      In it (items (list_quizzes PUBLIC_BASE_URL isoformat
                      skill_ difficulty_ search db)) ->
      item_skill it = Some v)
  /\ (forall v r,
         given search = Some v ->
         (In (listing_item PUBLIC_BASE_URL isoformat r)
             (items (list_quizzes PUBLIC_BASE_URL isoformat None None search db))
          <-> exists r', In r' db /\ published r' = true
                         /\ search_matches v r' = true
                         /\ listing_item PUBLIC_BASE_URL isoformat r
                            = listing_item PUBLIC_BASE_URL isoformat r'))
  /\ (forall v r,
         plain v = true ->
         (search_matches v r = true
          <-> ci_substring v (test_name r)
              \/ exists s, skill r = Some s /\ ci_substring v s)).
Proof.
  split; [ | split ].
  - intros v it Hv Hin. apply In_list_quizzes in Hin.
    destruct Hin as (r & _ & Hw & ->). simpl.
    unfold listing_where in Hw. rewrite Hv in Hw.
    rewrite !andb_true_iff in Hw. destruct Hw as [[[_ Hs] _] _].
    unfold col_eq in Hs. destruct (skill r) as [s | ]; [ | discriminate Hs ].
    apply String.eqb_eq in Hs. now subst s.
  - intros v r Hv. rewrite In_list_quizzes. unfold listing_where.
    rewrite Hv. simpl. split.
    + intros (r' & Hin & Hw & Heq). exists r'.
      rewrite !andb_true_r, andb_true_iff in Hw. tauto.
    + intros (r' & Hin & Hp & Hm & Heq). exists r'.
      rewrite Hp, Hm. auto.
  - intros v r Hplain. unfold search_matches, col_ilike.
    rewrite orb_true_iff, (ilike_contains v (test_name r) Hplain).
    destruct (skill r) as [s | ].
    + rewrite (ilike_contains v s Hplain). split.
      * intros [H | H]; [ now left | right; eauto ].
      * intros [H | (s' & Hs & H)]; [ now left | right; congruence ].
    + split.
      * intros [H | H]; [ now left | discriminate H ].
      * intros [H | (s' & Hs & _)]; [ now left | discriminate Hs ].
Qed.

End Listing.

(** C8, as stated, fails: the search string ["_"] matches this record, and
    the record is listed, though no underscore occurs in its [test_name]
    ("Custom General") or in its [skill] ("General"). *)
Lemma search_wildcard_matches_without_occurrence :
  search_matches "_" Samples.row_one_based = true
  /\ In (listing_item "http://localhost:8080" Samples.isoformat Samples.row_one_based)
        (items (list_quizzes "http://localhost:8080" Samples.isoformat
                  None None (Some "_") [Samples.row_one_based]))
  /\ ~ (ci_substring "_" (test_name Samples.row_one_based)
        \/ exists s, skill Samples.row_one_based = Some s /\ ci_substring "_" s).
Proof.
  split; [ reflexivity | ]. split; [ left; reflexivity | ].
  intros [(pre & post & H) | (s & Hs & pre & post & H)].
  - apply substring_char in H. discriminate H.
  - injection Hs as <-. apply substring_char in H. discriminate H.
Qed.

(** An instance: the skill filter [General] and the search string [gen]. *)
Lemma listing_skill_and_search_filters_witness :
  given (Some "General") = Some "General"
  /\ plain "gen" = true
  /\ item_skill (listing_item "http://localhost:8080" Samples.isoformat
                   Samples.row_one_based) = Some "General"
  /\ search_matches "gen" Samples.row_one_based = true
  /\ (ci_substring "gen" (test_name Samples.row_one_based)
      \/ exists s, skill Samples.row_one_based = Some s /\ ci_substring "gen" s).
Proof.
  destruct (listing_skill_and_search_filters
              "http://localhost:8080" Samples.isoformat
              (Some "General") None (Some "gen") [Samples.row_one_based])
    as (Hskill & _ & Hsearch).
  split; [ reflexivity | ]. split; [ reflexivity | ]. split.
  - apply Hskill; [ reflexivity | left; reflexivity ].
  - split; [ reflexivity | ].
    apply (Hsearch "gen" Samples.row_one_based); reflexivity.
Defined.

(** ** Further properties of the quiz API *)

Section ValidationMore.

Variable py_repr : jvalue -> string.

Lemma Q_not_invalid_json (i : Z) (msg : string) : Q i msg <> invalid_json.
Proof.
  unfold Q, invalid_json. cbn [append]. discriminate.
Qed.

(** What the loop can raise: the exception of one entry. *)
Lemma validate_loop_Raise (arr : list jvalue) :
  forall (i : Z) (acc : list item) (e : exn),
    validate_loop py_repr i acc arr = Raise e ->
    e = AttributeError \/ exists j msg, e = HTTPException 400 (Q j msg).
Proof.
  induction arr as [ | it rest IH]; intros i acc e H; [ discriminate H | ].
  cbn [validate_loop] in H.
  destruct (validate_entry_cases py_repr it) as [(x & Hx) | [(msg & Hm) | (_ & Hc)]].
  - rewrite Hx in H. cbn [bind] in H. eapply IH. exact H.
  - rewrite Hm in H. cbn [bind] in H. injection H as <-. right. eauto.
  - rewrite Hc in H. cbn [bind] in H. injection H as <-. now left.
Qed.

Lemma detect_test_name_Raise (root : jvalue) (e : exn) :
  detect_test_name root = Raise e -> e = AttributeError.
Proof.
  unfold detect_test_name. destruct root as [ | | | | | | d]; try discriminate.
  destruct (truthy (py_or (get d "Test Name") (get d "testName")));
    [ discriminate | ].
  destruct (py_or (get d "meta") (JDict [])); try discriminate; congruence.
Qed.

(** X1. The "Invalid JSON" rejection is raised for the documents that hold no
    question array (neither a non-empty array nor an object whose
    ["questions"] is one), and for no other document. *)
Theorem invalid_json_iff_no_question_array (root : jvalue) :
  normalize_and_validate py_repr root = Raise (HTTPException 400 invalid_json)
  <-> forall it rest, question_array root <> JList (it :: rest).
Proof.
  unfold normalize_and_validate. split.
  - intros H it rest Harr. rewrite Harr in H.
    destruct (validate_loop py_repr 1 [] (it :: rest)) as [items | e] eqn:Hloop.
    + cbn [bind] in H.
      destruct (detect_test_name root) as [t | e] eqn:Hname; cbn [bind] in H;
        [ discriminate H | ].
      apply detect_test_name_Raise in Hname. congruence.
    + cbn [bind] in H. injection H as ->.
      apply validate_loop_Raise in Hloop.
      destruct Hloop as [Hloop | (j & msg & Hloop)]; [ discriminate Hloop | ].
      assert (Hq : Q j msg = invalid_json) by congruence.
      now apply Q_not_invalid_json in Hq.
  - intros H.
    destruct (question_array root) as [ | | | | | [ | it rest] | ];
      try reflexivity.
    exfalso. now apply (H it rest).
Qed.

(** X2. An entry is accepted exactly when it is an object with a question text
    that is not blank, four options none of which is blank, and an answer
    that is present and reads as an integer [n] from 0 to 4; the entry
    returned carries the stripped text, the option strings and the index
    [max 0 (n - 1)]. *)
Theorem validate_entry_accepts_iff (i : Z) (it : jvalue) (x : item) :
  validate_entry py_repr i it = Ok x
  <-> exists d n,
        it = JDict d
        /\ question_text d = Ok (q x) /\ q x <> ""%string
        /\ options x = option_strings py_repr d
        /\ List.length (options x) = 4%nat
        /\ existsb blank (options x) = false
        /\ get d "a" <> JNull /\ get d "a" <> JStr ""
        /\ answer_int py_repr (get d "a") = Some n
        /\ 0 <= n <= 4
        /\ correct x = Z.max 0 (n - 1).
Proof.
  split.
  - intros Hx.
    destruct (validate_entry_Ok _ _ _ _ Hx)
      as (d & n & -> & Hq & Hne & Ho & Hlen & Hb & Hint & Hc & Hr).
    assert (Hn : 0 <= n <= 4).
    { rewrite Hc in Hr. apply shift_one_based_range. lia. }
    exists d, n. repeat split; auto; try lia.
    + intros Ha. unfold validate_entry in Hx. rewrite Hq in Hx. cbn [bind] in Hx.
      apply String.eqb_neq in Hne. rewrite Hne, <- Ho, Hlen, Hb, Ha in Hx.
      discriminate Hx.
    + intros Ha. unfold validate_entry in Hx. rewrite Hq in Hx. cbn [bind] in Hx.
      apply String.eqb_neq in Hne. rewrite Hne, <- Ho, Hlen, Hb, Ha in Hx.
      discriminate Hx.
    + rewrite Hc. unfold shift_one_based.
      destruct ((1 <=? n) && (n <=? 4)) eqn:E; lia.
  - intros (d & n & -> & Hq & Hne & Ho & Hlen & Hb & Hnull & Hempty & Hint & Hn & Hc).
    unfold validate_entry. rewrite Hq. cbn [bind].
    apply String.eqb_neq in Hne. rewrite Hne, <- Ho, Hlen, Hb. cbn [Nat.eqb negb].
    assert (Hshift : shift_one_based n = Z.max 0 (n - 1)).
    { unfold shift_one_based. destruct ((1 <=? n) && (n <=? 4)) eqn:E; lia. }
    assert (Hrange : (0 <=? shift_one_based n) && (shift_one_based n <? 4) = true).
    { apply shift_one_based_range. exact Hn. }
    assert (Hx : x = {| q := q x; options := options x;
                        correct := shift_one_based n |}).
    { destruct x. simpl in *. congruence. }
    destruct (get d "a") as [ | b | m | f | s | l | d'] eqn:Ha;
      try congruence;
      try (destruct s; [ congruence | ]);
      rewrite Hint, Hrange; cbn [negb]; now rewrite Hx at 3.
Qed.

(** X3. Options given under the keys ["1"] to ["4"] are four by construction:
    an entry that lacks one of the keys (or holds [null] under it) and has a
    question text is refused for an empty option, at its position. *)
Theorem missing_keyed_option_is_empty_option
    (i : Z) (d : list (string * jvalue)) (text key : string) :
  question_text d = Ok text -> text <> ""%string ->
  (forall l, get d "options" <> JList l) ->
  In key ["1"; "2"; "3"; "4"]%string ->
  get d key = JNull ->
  validate_entry py_repr i (JDict d)
  = Raise (HTTPException 400 (Q i "options cannot be empty")).
Proof.
  intros Hq Hne Hopt Hkey Hnull. unfold validate_entry. rewrite Hq. cbn [bind].
  apply String.eqb_neq in Hne. rewrite Hne.
  assert (Ho : option_strings py_repr d
               = strings py_repr [get d "1"; get d "2"; get d "3"; get d "4"]).
  { unfold option_strings. destruct (get d "options"); try reflexivity.
    exfalso. now apply (Hopt l). }
  rewrite Ho. cbn [strings map List.length Nat.eqb negb].
  assert (Hb : existsb blank
                 (map (fun x => match x with JNull => ""%string | _ => str py_repr x end)
                      [get d "1"; get d "2"; get d "3"; get d "4"]) = true).
  { apply existsb_exists. exists ""%string. split; [ | reflexivity ].
    apply in_map_iff. exists JNull. split; [ reflexivity | ].
    rewrite <- Hnull. simpl in Hkey. simpl.
    destruct Hkey as [<- | [<- | [<- | [<- | []]]]]; auto. }
  cbn [map] in Hb. rewrite Hb. reflexivity.
Qed.

(** The object form validates its questions as the bare array does, and
    then detects the test name. *)
Lemma object_form_validates_as_array
    (d : list (string * jvalue)) (arr : list jvalue) :
  get d "questions" = JList arr ->
  normalize_and_validate py_repr (JDict d)
  = (r <- normalize_and_validate py_repr (JList arr) ;;
     test_name <- detect_test_name (JDict d) ;;
     Ok (fst r, test_name)).
Proof.
  intros Hq. unfold normalize_and_validate. cbn [question_array]. rewrite Hq.
  destruct arr as [ | it rest]; [ reflexivity | ].
  destruct (validate_loop py_repr 1 [] (it :: rest)) as [items | e];
    reflexivity.
Qed.

(** X4. A truthy ["meta"] that is no object makes a document with valid
    questions and no other test name raise [AttributeError]. *)
Theorem non_object_meta_raises
    (d : list (string * jvalue)) (arr : list jvalue)
    (items : list item) (name : jvalue) :
  get d "questions" = JList arr ->
  normalize_and_validate py_repr (JList arr) = Ok (items, name) ->
  truthy (get d "Test Name") = false ->
  truthy (get d "testName") = false ->
  truthy (get d "meta") = true ->
  (forall m, get d "meta" <> JDict m) ->
  normalize_and_validate py_repr (JDict d) = Raise AttributeError.
Proof.
  intros Hq Hv Ht1 Ht2 Hm Hnd.
  unfold normalize_and_validate in *. cbn [question_array] in *. rewrite Hq.
  destruct arr as [ | it rest]; [ discriminate Hv | ].
  destruct (validate_loop py_repr 1 [] (it :: rest)) as [xs | e];
    [ | discriminate Hv ].
  cbn [bind detect_test_name]. unfold py_or. rewrite Ht1, Ht2, Hm.
  destruct (get d "meta"); try reflexivity. exfalso. now apply (Hnd d0).
Qed.

End ValidationMore.

Lemma or_str_nonempty (a : option string) (d : string) :
  d <> ""%string -> or_str a d <> ""%string.
Proof.
  intros Hd. unfold or_str. destruct a as [s | ]; [ | exact Hd ].
  destruct (s =? "")%string eqn:E; [ exact Hd | ]. now apply String.eqb_neq.
Qed.

Lemma lstrip_head (s : string) (c : ascii) (r : string) :
  lstrip s = String c r -> is_space c = false.
Proof.
  induction s as [ | x s IH]; simpl; [ discriminate | ].
  destruct (is_space x) eqn:E; [ exact IH | ]. intros H. now injection H as <- _.
Qed.

(** The first word of a string is not empty. *)
Lemma split_first_nonempty (t w : string) :
  split_first t = Ok w -> w <> ""%string.
Proof.
  unfold split_first. destruct (lstrip t) as [ | c r] eqn:E; [ discriminate | ].
  intros H. injection H as <-. simpl. rewrite (lstrip_head _ _ _ E). discriminate.
Qed.

Lemma existsb_false_In {A : Type} (f : A -> bool) (l : list A) (x : A) :
  existsb f l = false -> In x l -> f x = false.
Proof.
  intros H Hin. destruct (f x) eqn:E; [ | reflexivity ].
  rewrite <- H. symmetry. apply existsb_exists. eauto.
Qed.

Section ImportMore.

Variable ADMIN_TOKEN : string.
Variable PUBLIC_BASE_URL : string.
Variable py_repr : jvalue -> string.
Variable adapt_text : jvalue -> option string.
Variable isoformat : Z -> string.

(** X5. [require_admin] answers 401 to a header that is absent or does not start
    with ["Bearer "], and 403 to one that does with another token. *)
Theorem require_admin_401_or_403 (authorization : option string) :
  (require_admin ADMIN_TOKEN authorization
   = Raise (HTTPException 401 "Missing or invalid Authorization header")
   <-> forall token, authorization <> Some ("Bearer " ++ token))
  /\ (require_admin ADMIN_TOKEN authorization = Raise (HTTPException 403 "Forbidden")
      <-> exists token,
            authorization = Some ("Bearer " ++ token) /\ token <> ADMIN_TOKEN).
Proof.
  unfold require_admin. destruct authorization as [a | ].
  - destruct (startswith "Bearer " a) eqn:Hs.
    + apply startswith_spec in Hs. destruct Hs as (r & ->).
      cbn [String.eqb append orb negb startswith Ascii.eqb Bool.eqb andb].
      cbn [split1_second after_first_space append Ascii.eqb Bool.eqb bind].
      destruct (r =? ADMIN_TOKEN)%string eqn:Hr; cbn [negb].
      * apply String.eqb_eq in Hr. split; split.
        -- discriminate.
        -- intros H. exfalso. now apply (H r).
        -- discriminate.
        -- intros (t & Ht & Hne). injection Ht as <-. contradiction.
      * apply String.eqb_neq in Hr. split; split.
        -- discriminate.
        -- intros H. exfalso. now apply (H r).
        -- intros _. now exists r.
        -- reflexivity.
    + assert (Hno : forall token, Some a <> Some ("Bearer " ++ token)).
      { intros t Ht.
        assert (Ha : a = "Bearer " ++ t) by congruence.
        assert (startswith "Bearer " a = true)
          by (apply startswith_spec; eauto).
        congruence. }
      rewrite orb_true_r. split; split; auto.
      * discriminate.
      * intros (t & Ht & _). exfalso. now apply (Hno t).
  - split; split; auto; try discriminate.
    intros (t & Ht & _). discriminate Ht.
Qed.

(** The row a successful import appends, spelled out. *)
Lemma api_import_row (payload : ImportPayload.t) (authorization : option string)
    (qid : string) (now : Z) (db db' : list Quiz) (resp : ImportResponse) :
  api_import ADMIN_TOKEN PUBLIC_BASE_URL py_repr adapt_text
    payload authorization qid now db = (Ok resp, db') ->
  exists items name sk nm,
    normalize_and_validate py_repr (ImportPayload.json payload) = Ok (items, name)
    /\ existsb (fun r => (id r =? qid)%string) db = false
    /\ (let s := strip (or_str (ImportPayload.skill payload) "") in
        if negb (s =? "")%string then Ok s
        else
          w <- (if truthy name
                then match name with
                     | JStr t => w <- split_first t ;; Ok (Some w)
                     | _ => Raise AttributeError
                     end
                else Ok None) ;;
          Ok (or_str w "General")) = Ok sk
    /\ db' = (db ++ [{| id := qid;
                        test_name := nm;
                        skill := Some sk;
                        difficulty :=
                          Some (strip (or_str (ImportPayload.difficulty payload) "Mixed"));
                        yoe := Some (or_str (Some (strip (or_str (ImportPayload.yoe payload) "")))
                                            "N/A");
                        question_count := Z.of_nat (List.length items);
                        json := ImportPayload.json payload;
                        status := "published";
                        created_at := now;
                        updated_at := now |}])%list
    /\ import_id resp = qid
    /\ import_url resp = PUBLIC_BASE_URL ++ "/quizzes/" ++ qid ++ ".json"
    /\ meta_skill (import_meta resp) = sk
    /\ meta_test_name (import_meta resp) = py_or name (JStr ("Custom " ++ sk))
    /\ meta_count (import_meta resp) = Z.of_nat (List.length items).
Proof.
  unfold api_import.
  match goal with |- (match ?run with _ => _ end) = _ -> _ =>
    destruct run as [[db1 r1] | e] eqn:Hrun end; [ | discriminate ].
  intros H. injection H as -> ->.
  apply bind_Ok in Hrun. destruct Hrun as (u & _ & Hrun).
  apply bind_Ok in Hrun. destruct Hrun as ([items name] & Hv & Hrun).
  apply bind_Ok in Hrun. destruct Hrun as (sk & Hsk & Hrun).
  apply bind_Ok in Hrun. destruct Hrun as (nm & _ & Hrun).
  apply bind_Ok in Hrun. destruct Hrun as (db2 & Hadd & Hrun).
  injection Hrun as <- <-.
  unfold session_add in Hadd. simpl in Hadd.
  destruct (existsb (fun r => (id r =? qid)%string) db) eqn:Hfresh;
    [ discriminate | ].
  injection Hadd as <-.
  exists items, name, sk, nm. repeat split; auto.
Qed.

(** The skill an import derives is never empty. *)
Lemma import_skill_nonempty (payload : ImportPayload.t) (name : jvalue) (sk : string) :
  (let s := strip (or_str (ImportPayload.skill payload) "") in
   if negb (s =? "")%string then Ok s
   else
     w <- (if truthy name
           then match name with
                | JStr t => w <- split_first t ;; Ok (Some w)
                | _ => Raise AttributeError
                end
           else Ok None) ;;
     Ok (or_str w "General")) = Ok sk ->
  sk <> ""%string.
Proof.
  cbv zeta. intros Hsk.
  destruct (negb (strip (or_str (ImportPayload.skill payload) "") =? "")%string)
    eqn:E.
  - injection Hsk as <-. apply negb_true_iff in E. now apply String.eqb_neq.
  - apply bind_Ok in Hsk. destruct Hsk as (w & _ & Hsk). injection Hsk as <-.
    apply or_str_nonempty. discriminate.
Qed.

(** X6. Import, then retrieve: the quiz just imported is served at once under
    the identifier of the response, as the document that was sent. *)
Theorem import_then_get_returns_document
    (payload : ImportPayload.t) (authorization : option string)
    (qid : string) (now : Z) (db db' : list Quiz) (resp : ImportResponse) :
  api_import ADMIN_TOKEN PUBLIC_BASE_URL py_repr adapt_text
    payload authorization qid now db = (Ok resp, db') ->
  get_quiz_json (import_id resp) db' = Ok (ImportPayload.json payload).
Proof.
  intros H. apply api_import_row in H.
  destruct H as (items & name & sk & nm & Hv & Hfresh & _ & -> & -> & _).
  unfold get_quiz_json. rewrite filter_app.
  rewrite (filter_none _ db).
  - cbn. rewrite String.eqb_refl. cbn.
    apply normalize_and_validate_Ok in Hv. destruct Hv as (arr & Harr & _).
    destruct (ImportPayload.json payload); try reflexivity. discriminate Harr.
  - intros x Hx. rewrite (existsb_false_In _ _ _ Hfresh Hx). reflexivity.
Qed.

(** X7. An import, whether it succeeds or raises, leaves the retrieval of every
    other identifier as it was. *)
Theorem import_leaves_other_quizzes
    (payload : ImportPayload.t) (authorization : option string)
    (qid : string) (now : Z) (db : list Quiz) (quiz_id : string) :
  quiz_id <> qid ->
  get_quiz_json quiz_id
    (snd (api_import ADMIN_TOKEN PUBLIC_BASE_URL py_repr adapt_text
            payload authorization qid now db))
  = get_quiz_json quiz_id db.
Proof.
  intros Hne.
  destruct (api_import ADMIN_TOKEN PUBLIC_BASE_URL py_repr adapt_text
              payload authorization qid now db) as [[resp | e] db'] eqn:H;
    cbn [snd].
  - apply api_import_row in H.
    destruct H as (items & name & sk & nm & _ & _ & _ & -> & _).
    unfold get_quiz_json. rewrite filter_app. cbn.
    apply String.eqb_neq in Hne. rewrite String.eqb_sym, Hne. cbn.
    now rewrite app_nil_r.
  - apply api_import_Raise in H. now subst db'.
Qed.

(** X8. What an import stores is what validation reports: a successful import
    implies that [api_validate] accepts the payload, and the question count
    of the stored row, of the import response and of the validation response
    are one number, which is 1 at least. *)
Theorem import_counts_what_validate_reports
    (payload : ImportPayload.t) (authorization : option string)
    (qid : string) (now : Z) (db db' : list Quiz) (resp : ImportResponse) :
  api_import ADMIN_TOKEN PUBLIC_BASE_URL py_repr adapt_text
    payload authorization qid now db = (Ok resp, db') ->
  exists v row,
    api_validate py_repr payload = Ok v
    /\ db' = (db ++ [row])%list
    /\ question_count row = validate_question_count v
    /\ meta_count (import_meta resp) = validate_question_count v
    /\ 1 <= validate_question_count v.
Proof.
  intros H. apply api_import_row in H.
  destruct H as (items & name & sk & nm & Hv & _ & _ & -> & _ & _ & _ & _ & Hc).
  unfold api_validate. rewrite Hv. cbn [bind].
  eexists. eexists. split; [ reflexivity | ]. split; [ reflexivity | ].
  cbn. split; [ reflexivity | ]. split; [ exact Hc | ].
  apply normalize_and_validate_Ok in Hv.
  destruct Hv as (arr & _ & Hne & Hall & _).
  rewrite <- (Forall2_length Hall). destruct arr; [ contradiction | cbn; lia ].
Qed.

(** X9. With the right header, a payload that [api_validate] refuses is refused
    by the import with the same exception, and nothing is stored. *)
Theorem import_rejects_what_validate_rejects
    (payload : ImportPayload.t) (qid : string) (now : Z) (db : list Quiz) (e : exn) :
  api_validate py_repr payload = Raise e ->
  api_import ADMIN_TOKEN PUBLIC_BASE_URL py_repr adapt_text
    payload (Some ("Bearer " ++ ADMIN_TOKEN)) qid now db = (Raise e, db).
Proof.
  unfold api_validate, api_import. intros H.
  rewrite (proj2 (require_admin_Ok ADMIN_TOKEN _ tt) eq_refl). cbn [bind].
  destruct (normalize_and_validate py_repr (ImportPayload.json payload))
    as [[items name] | e']; cbn [bind] in *; [ discriminate H | ].
  now injection H as ->.
Qed.

(** X10. Every row an import stores is published, carries the identifier and the
    clock reading of the request, a skill and a years-of-experience tag that
    are not empty, and is served under the URL the response announces, which
    is the URL the listing shows for it. *)
Theorem imported_row_is_well_formed
    (payload : ImportPayload.t) (authorization : option string)
    (qid : string) (now : Z) (db db' : list Quiz) (resp : ImportResponse) :
  api_import ADMIN_TOKEN PUBLIC_BASE_URL py_repr adapt_text
    payload authorization qid now db = (Ok resp, db') ->
  exists row sk y,
    db' = (db ++ [row])%list
    /\ id row = qid /\ status row = "published"
    /\ created_at row = now /\ updated_at row = now
    /\ skill row = Some sk /\ sk <> ""%string
    /\ yoe row = Some y /\ y <> ""%string
    /\ import_url resp = item_url (listing_item PUBLIC_BASE_URL isoformat row).
Proof.
  intros H. apply api_import_row in H.
  destruct H as (items & name & sk & nm & _ & _ & Hsk & -> & _ & Hurl & _).
  eexists. exists sk. eexists. split; [ reflexivity | ].
  cbn [id status created_at updated_at skill yoe item_url listing_item].
  repeat split; auto.
  - exact (import_skill_nonempty payload name sk Hsk).
  - apply or_str_nonempty. discriminate.
Qed.

(** X11. Where the stored skill comes from: the trimmed skill of the payload when
    that is not blank; else the first word of the detected test name; else
    ["General"]. *)
Theorem import_skill_source
    (payload : ImportPayload.t) (authorization : option string)
    (qid : string) (now : Z) (db db' : list Quiz) (resp : ImportResponse) :
  api_import ADMIN_TOKEN PUBLIC_BASE_URL py_repr adapt_text
    payload authorization qid now db = (Ok resp, db') ->
  exists items name row sk,
    normalize_and_validate py_repr (ImportPayload.json payload) = Ok (items, name)
    /\ db' = (db ++ [row])%list
    /\ skill row = Some sk
    /\ meta_skill (import_meta resp) = sk
    /\ let given_skill := strip (or_str (ImportPayload.skill payload) "") in
       (given_skill <> ""%string /\ sk = given_skill)
       \/ (given_skill = ""%string
           /\ exists t, name = JStr t /\ t <> ""%string /\ split_first t = Ok sk)
       \/ (given_skill = ""%string /\ truthy name = false /\ sk = "General"%string).
Proof.
  intros H. apply api_import_row in H.
  destruct H as (items & name & sk & nm & Hv & _ & Hsk & -> & _ & _ & Hm & _).
  exists items, name. eexists. exists sk.
  split; [ exact Hv | ]. split; [ reflexivity | ]. split; [ reflexivity | ].
  split; [ exact Hm | ].
  cbv zeta in *.
  destruct (strip (or_str (ImportPayload.skill payload) "") =? "")%string eqn:E;
    cbn [negb] in Hsk.
  - apply String.eqb_eq in E. right.
    apply bind_Ok in Hsk. destruct Hsk as (w & Hw & Hsk). injection Hsk as <-.
    destruct (truthy name) eqn:Ht.
    + left. split; [ exact E | ].
      destruct name as [ | | | | t | | ]; try discriminate Hw.
      apply bind_Ok in Hw. destruct Hw as (w' & Hw' & Hw). injection Hw as <-.
      exists t. split; [ reflexivity | ]. split.
      * intros ->. discriminate Ht.
      * rewrite Hw'. f_equal. unfold or_str.
        apply split_first_nonempty in Hw'. apply String.eqb_neq in Hw'.
        now rewrite Hw'.
    + right. injection Hw as <-. auto.
  - left. apply String.eqb_neq in E. injection Hsk as <-. auto.
Qed.

(** X12. Without a skill in the payload the detected test name must hold a word:
    a name of whitespace only makes the import raise [IndexError], a truthy
    name that is no string [AttributeError]; nothing is stored. *)
Theorem import_without_skill_needs_a_word
    (payload : ImportPayload.t) (qid : string) (now : Z) (db : list Quiz)
    (items : list item) (name : jvalue) :
  normalize_and_validate py_repr (ImportPayload.json payload) = Ok (items, name) ->
  strip (or_str (ImportPayload.skill payload) "") = ""%string ->
  truthy name = true ->
  (forall t, name = JStr t -> lstrip t = ""%string) ->
  exists e,
    api_import ADMIN_TOKEN PUBLIC_BASE_URL py_repr adapt_text
      payload (Some ("Bearer " ++ ADMIN_TOKEN)) qid now db = (Raise e, db)
    /\ e = match name with JStr _ => IndexError | _ => AttributeError end.
Proof.
  intros Hv Hs Ht Hblank. unfold api_import.
  rewrite (proj2 (require_admin_Ok ADMIN_TOKEN _ tt) eq_refl). cbn [bind].
  rewrite Hv. cbn [bind]. rewrite Hs, Ht. cbn [String.eqb negb].
  destruct name as [ | | | | t | | ]; cbn [bind]; try (eexists; split; reflexivity).
  unfold split_first. rewrite (Hblank t eq_refl). cbn [bind].
  eexists; split; reflexivity.
Qed.

End ImportMore.

(** *** Order and summary of the listing, and the manifest *)

Lemma insert_by_Permutation {A : Type} (le : A -> A -> bool) (x : A) (l : list A) :
  Permutation (insert_by le x l) (x :: l).
Proof.
  induction l as [ | y l IH]; simpl; [ reflexivity | ].
  destruct (le x y); [ reflexivity | ].
  rewrite IH. apply perm_swap.
Qed.

Lemma order_by_Permutation {A : Type} (le : A -> A -> bool) (l : list A) :
  Permutation (order_by le l) l.
Proof.
  unfold order_by. induction l as [ | x l IH]; simpl; [ reflexivity | ].
  rewrite insert_by_Permutation. now constructor.
Qed.

Section InsertionSort.

Variable A : Type.
Variable le : A -> A -> bool.
Hypothesis le_total : forall a b, le a b = false -> le b a = true.

Lemma insert_by_Sorted (x : A) (l : list A) :
  Sorted.Sorted (fun a b => le a b = true) l ->
  Sorted.Sorted (fun a b => le a b = true) (insert_by le x l).
Proof.
  induction 1 as [ | y l Hs IH Hhd]; simpl.
  - repeat constructor.
  - destruct (le x y) eqn:E.
    + constructor; [ now constructor | now constructor ].
    + constructor; [ exact IH | ].
      destruct l as [ | z l]; simpl.
      * constructor. now apply le_total.
      * destruct (le x z); constructor; [ now apply le_total | ].
        now inversion Hhd.
Qed.

Lemma order_by_Sorted (l : list A) :
  Sorted.Sorted (fun a b => le a b = true) (order_by le l).
Proof.
  unfold order_by. induction l as [ | x l IH]; simpl; [ constructor | ].
  now apply insert_by_Sorted.
Qed.

End InsertionSort.

Lemma skill_compare_antisym (a b : option string) :
  skill_compare a b = CompOpp (skill_compare b a).
Proof.
  destruct a, b; simpl; auto. apply String.compare_antisym.
Qed.

Lemma skill_compare_Eq (a b : option string) :
  skill_compare a b = Eq <-> a = b.
Proof.
  destruct a as [x | ], b as [y | ]; simpl; split; intros H;
    try discriminate; auto.
  - apply OrderedTypeEx.String_as_OT.cmp_eq in H. now subst.
  - injection H as ->. now apply OrderedTypeEx.String_as_OT.cmp_eq.
Qed.

Lemma skill_compare_Lt_trans (a b c : option string) :
  skill_compare a b = Lt -> skill_compare b c = Lt -> skill_compare a c = Lt.
Proof.
  destruct a as [x | ], b as [y | ], c as [z | ]; simpl; intros H1 H2;
    try discriminate; auto.
  apply OrderedTypeEx.String_as_OT.cmp_lt in H1, H2.
  apply OrderedTypeEx.String_as_OT.cmp_lt.
  eapply OrderedTypeEx.String_as_OT.lt_trans; eassumption.
Qed.

Lemma listing_le_before (a b : Quiz) :
  listing_le a b = true <-> listing_before a b.
Proof.
  unfold listing_le, listing_before.
  destruct (skill_compare (skill a) (skill b)) eqn:E.
  - apply skill_compare_Eq in E. rewrite Z.leb_le. split.
    + intros H. right. auto.
    + intros [H | [_ H]]; [ discriminate H | exact H ].
  - split; auto.
  - split; [ discriminate | ].
    intros [H | [H _]]; [ discriminate H | ].
    apply skill_compare_Eq in H. congruence.
Qed.

Lemma listing_le_total (a b : Quiz) :
  listing_le a b = false -> listing_le b a = true.
Proof.
  unfold listing_le. rewrite (skill_compare_antisym (skill b) (skill a)).
  destruct (skill_compare (skill a) (skill b)); simpl; try discriminate; auto.
  intros H. apply Z.leb_gt in H. apply Z.leb_le. lia.
Qed.

Lemma listing_before_trans (a b c : Quiz) :
  listing_before a b -> listing_before b c -> listing_before a c.
Proof.
  unfold listing_before. intros [H1 | [H1 H1']] [H2 | [H2 H2']].
  - left. eapply skill_compare_Lt_trans; eassumption.
  - left. now rewrite <- H2.
  - left. now rewrite H1.
  - right. split; [ congruence | lia ].
Qed.

Lemma opt_eqb_eq (a b : option string) : opt_eqb a b = true <-> a = b.
Proof.
  destruct a as [x | ], b as [y | ]; simpl; split; intros H;
    try discriminate; auto.
  - apply String.eqb_eq in H. now subst.
  - injection H as ->. apply String.eqb_refl.
Qed.

Lemma bump_count (k k' : option string) (acc : list (option string * Z)) :
  count_in k' (bump k acc) = count_in k' acc + (if opt_eqb k k' then 1 else 0).
Proof.
  induction acc as [ | [k0 n] acc IH]; simpl.
  - destruct (opt_eqb k k'); lia.
  - destruct (opt_eqb k k0) eqn:E; simpl.
    + apply opt_eqb_eq in E. subst k0. destruct (opt_eqb k k'); lia.
    + rewrite IH. destruct (opt_eqb k0 k'); lia.
Qed.

Lemma bump_keys (k k' : option string) (acc : list (option string * Z)) :
  In k' (map fst (bump k acc)) <-> k' = k \/ In k' (map fst acc).
Proof.
  induction acc as [ | [k0 n] acc IH]; simpl.
  - intuition.
  - destruct (opt_eqb k k0) eqn:E; simpl.
    + apply opt_eqb_eq in E. subst k0. intuition.
    + rewrite IH. intuition.
Qed.

Lemma bump_NoDup (k : option string) (acc : list (option string * Z)) :
  NoDup (map fst acc) -> NoDup (map fst (bump k acc)).
Proof.
  induction acc as [ | [k0 n] acc IH]; simpl; intros H.
  - repeat constructor. intros [].
  - inversion H as [ | ? ? Hk0 Hnd]; subst.
    destruct (opt_eqb k k0) eqn:E; simpl.
    + now constructor.
    + constructor; [ | now apply IH ].
      rewrite bump_keys. intros [-> | Hin]; [ | contradiction ].
      assert (opt_eqb k k = true) by now apply opt_eqb_eq. congruence.
Qed.

Lemma bump_positive (k : option string) (acc : list (option string * Z)) :
  Forall (fun p => 1 <= snd p) acc -> Forall (fun p => 1 <= snd p) (bump k acc).
Proof.
  induction 1 as [ | [k0 n] acc Hn Hacc IH]; simpl.
  - repeat constructor. simpl. lia.
  - destruct (opt_eqb k k0); constructor; simpl in *; auto; lia.
Qed.

Lemma group_count_from (rows : list Quiz) :
  forall acc,
    NoDup (map fst acc) -> Forall (fun p => 1 <= snd p) acc ->
    let acc' := fold_left (fun acc r => bump (skill r) acc) rows acc in
    NoDup (map fst acc')
    /\ Forall (fun p => 1 <= snd p) acc'
    /\ forall k, count_in k acc' = count_in k acc + count_skill k rows.
Proof.
  induction rows as [ | r rows IH]; intros acc Hnd Hpos; simpl.
  - repeat split; auto. intros k. unfold count_skill. simpl. lia.
  - destruct (IH (bump (skill r) acc) (bump_NoDup _ _ Hnd) (bump_positive _ _ Hpos))
      as (Hnd' & Hpos' & Hcount).
    repeat split; auto. intros k. rewrite Hcount, bump_count.
    unfold count_skill. simpl. destruct (opt_eqb (skill r) k); simpl; lia.
Qed.

Lemma count_in_absent (k : option string) (acc : list (option string * Z)) :
  ~ In k (map fst acc) -> count_in k acc = 0.
Proof.
  induction acc as [ | [k0 n] acc IH]; simpl; intros H; [ reflexivity | ].
  destruct (opt_eqb k0 k) eqn:E.
  - apply opt_eqb_eq in E. exfalso. apply H. now left.
  - apply IH. intros Hin. apply H. now right.
Qed.

Lemma count_in_nonzero (k : option string) (acc : list (option string * Z)) :
  count_in k acc <> 0 -> exists n, In (k, n) acc.
Proof.
  induction acc as [ | [k0 m] acc IH]; simpl; intros H; [ contradiction | ].
  destruct (opt_eqb k0 k) eqn:E.
  - apply opt_eqb_eq in E. subst k0. eauto.
  - destruct (IH H) as (n & Hn). eauto.
Qed.

Lemma count_in_present (k : option string) (n : Z) (acc : list (option string * Z)) :
  NoDup (map fst acc) -> In (k, n) acc -> count_in k acc = n.
Proof.
  induction acc as [ | [k0 m] acc IH]; simpl; intros Hnd Hin; [ destruct Hin | ].
  inversion Hnd as [ | ? ? Hk0 Hnd']; subst.
  destruct Hin as [Heq | Hin].
  - injection Heq as -> ->.
    assert (E : opt_eqb k k = true) by now apply opt_eqb_eq.
    rewrite E, count_in_absent; [ lia | exact Hk0 ].
  - destruct (opt_eqb k0 k) eqn:E.
    + apply opt_eqb_eq in E. subst k0. exfalso. apply Hk0.
      apply in_map_iff. exists (k, n). auto.
    + now apply IH.
Qed.

Lemma In_firstn {A : Type} (n : nat) (l : list A) (x : A) :
  In x (firstn n l) -> In x l.
Proof.
  intros H. rewrite <- (firstn_skipn n l). apply in_or_app. now left.
Qed.

Lemma Sorted_weaken {A : Type} (R R' : A -> A -> Prop) (l : list A) :
  (forall a b, R a b -> R' a b) -> Sorted.Sorted R l -> Sorted.Sorted R' l.
Proof.
  intros HR. induction 1 as [ | x l Hs IH Hhd]; constructor; auto.
  destruct Hhd; constructor. now apply HR.
Qed.

Lemma Sorted_firstn {A : Type} (R : A -> A -> Prop) (l : list A) :
  Sorted.Sorted R l -> forall n, Sorted.Sorted R (firstn n l).
Proof.
  induction 1 as [ | x l Hs IH Hhd]; intros n.
  - rewrite firstn_nil. constructor.
  - destruct n as [ | n]; simpl; [ constructor | ].
    constructor; [ apply IH | ].
    destruct Hhd; destruct n; simpl; constructor; assumption.
Qed.

Section ListingMore.

Variable ADMIN_TOKEN : string.
Variable PUBLIC_BASE_URL : string.
Variable py_repr : jvalue -> string.
Variable adapt_text : jvalue -> option string.
Variable isoformat : Z -> string.

(** X13. The listing is the selection of the [WHERE] clause, each selected row
    once, in order: skills ascending with NULLs last, and within a skill the
    newer row first. *)
Theorem listing_is_sorted_selection
    (skill_ difficulty_ search : option string) (db : list Quiz) :
  items (list_quizzes PUBLIC_BASE_URL isoformat skill_ difficulty_ search db)
  = map (listing_item PUBLIC_BASE_URL isoformat)
        (listing_rows skill_ difficulty_ search db)
  /\ Permutation (listing_rows skill_ difficulty_ search db)
                 (filter (listing_where skill_ difficulty_ search) db)
  /\ Sorted.StronglySorted listing_before
       (listing_rows skill_ difficulty_ search db).
Proof.
  split; [ reflexivity | ]. split; [ apply order_by_Permutation | ].
  apply Sorted.Sorted_StronglySorted.
  - intros a b c. apply listing_before_trans.
  - unfold listing_rows.
    apply Sorted_weaken with (R := fun a b => listing_le a b = true).
    + intros a b. apply listing_le_before.
    + apply order_by_Sorted. exact listing_le_total.
Qed.

(** X14. The per-skill summary of a listing does not depend on the filters of
    the request: it has one entry per skill among the published rows, with
    the number of published rows of that skill. *)
Theorem listing_summary_counts_published
    (skill_ difficulty_ search : option string) (db : list Quiz) :
  let summary :=
    skills (list_quizzes PUBLIC_BASE_URL isoformat skill_ difficulty_ search db) in
  NoDup (map fst summary)
  /\ forall k n,
       In (k, n) summary
       <-> n = count_skill k (filter published db) /\ 1 <= n.
Proof.
  cbn [list_quizzes skills].
  destruct (group_count_from (filter published db) [] (NoDup_nil _) (Forall_nil _))
    as (Hnd & Hpos & Hcount).
  fold (group_count (filter published db)) in Hnd, Hpos, Hcount.
  split.
  - eapply Permutation_NoDup; [ | exact Hnd ].
    apply Permutation_map. symmetry. apply order_by_Permutation.
  - intros k n. rewrite In_order_by. specialize (Hcount k). simpl in Hcount.
    split.
    + intros Hin. rewrite <- Hcount, (count_in_present k n _ Hnd Hin).
      split; [ reflexivity | ].
      rewrite Forall_forall in Hpos. exact (Hpos _ Hin).
    + intros [-> Hn].
      destruct (count_in_nonzero k (group_count (filter published db)))
        as (n' & Hin); [ lia | ].
      rewrite <- Hcount, (count_in_present k n' _ Hnd Hin). exact Hin.
Qed.

(** X15. The manifest holds the URLs of published rows only, newest first, 500
    at most, and every published row when there are no more than 500. *)
Theorem manifest_lists_published_newest_first (db : list Quiz) :
  exists rows,
    manifest PUBLIC_BASE_URL db
    = map (fun r => PUBLIC_BASE_URL ++ "/quizzes/" ++ id r ++ ".json") rows
    /\ List.length rows = Nat.min 500 (List.length (filter published db))
    /\ (forall r, In r rows -> In r db /\ published r = true)
    /\ Sorted.Sorted (fun a b => created_at b <= created_at a) rows
    /\ ((List.length (filter published db) <= 500)%nat ->
        Permutation rows (filter published db)).
Proof.
  unfold manifest.
  set (sorted := order_by (fun a b => created_at b <=? created_at a)
                          (filter published db)).
  assert (Hperm : Permutation sorted (filter published db))
    by apply order_by_Permutation.
  exists (firstn 500 sorted). split; [ reflexivity | ]. split.
  { rewrite length_firstn, (Permutation_length Hperm). reflexivity. }
  split.
  { intros r Hr. apply In_firstn in Hr.
    apply (Permutation_in _ Hperm), filter_In in Hr. exact Hr. }
  split.
  { apply Sorted_firstn.
    apply Sorted_weaken with (R := fun a b => (created_at b <=? created_at a) = true).
    - intros a b. apply Z.leb_le.
    - apply order_by_Sorted. intros a b E. apply Z.leb_gt in E. apply Z.leb_le. lia. }
  intros Hle. rewrite firstn_all2; [ exact Hperm | ].
  now rewrite (Permutation_length Hperm).
Qed.

(** X16. A quiz just imported is listed, without filters and under the skill the
    response reports, with the identifier, URL and count of the response. *)
Theorem imported_quiz_is_listed
    (payload : ImportPayload.t) (authorization : option string)
    (qid : string) (now : Z) (db db' : list Quiz) (resp : ImportResponse)
    (skill_ : option string) :
  api_import ADMIN_TOKEN PUBLIC_BASE_URL py_repr adapt_text
    payload authorization qid now db = (Ok resp, db') ->
  skill_ = None \/ skill_ = Some (meta_skill (import_meta resp)) ->
  exists it,
    In it (items (list_quizzes PUBLIC_BASE_URL isoformat skill_ None None db'))
    /\ item_id it = import_id resp
    /\ item_url it = import_url resp
    /\ item_count it = meta_count (import_meta resp)
    /\ item_skill it = Some (meta_skill (import_meta resp)).
Proof.
  intros H Hskill. apply api_import_row in H.
  destruct H as (items & name & sk & nm & _ & _ & Hder & -> & Hid & Hurl & Hsk & _ & Hc).
  pose proof (import_skill_nonempty payload name sk Hder) as Hne.
  eexists. split.
  - apply In_list_quizzes. eexists. split; [ apply in_or_app; right; left; reflexivity | ].
    split; [ | reflexivity ].
    unfold listing_where. cbn [published status skill given].
    destruct Hskill as [-> | ->]; cbn [given].
    + reflexivity.
    + rewrite Hsk. apply String.eqb_neq in Hne. rewrite Hne.
      cbn [col_eq]. now rewrite String.eqb_refl.
  - cbn. rewrite Hid, Hurl, Hsk, Hc. auto.
Qed.

(** X17. The URL an import announces is in the manifest, as long as the table
    held fewer than 500 published rows. *)
Theorem imported_quiz_in_manifest
    (payload : ImportPayload.t) (authorization : option string)
    (qid : string) (now : Z) (db db' : list Quiz) (resp : ImportResponse) :
  api_import ADMIN_TOKEN PUBLIC_BASE_URL py_repr adapt_text
    payload authorization qid now db = (Ok resp, db') ->
  (List.length (filter published db) < 500)%nat ->
  In (import_url resp) (manifest PUBLIC_BASE_URL db').
Proof.
  intros H Hlt. apply api_import_row in H.
  destruct H as (items & name & sk & nm & _ & _ & _ & -> & _ & -> & _).
  unfold manifest. rewrite filter_app.
  match goal with
  | |- context [filter published [?r]] => change (filter published [r]) with [r]
  end.
  rewrite firstn_all2.
  - apply in_map_iff. eexists. split; [ | apply In_order_by, in_or_app; right; left; reflexivity ].
    reflexivity.
  - rewrite (Permutation_length (order_by_Permutation _ _)), length_app.
    cbn [List.length]. lia.
Qed.

End ListingMore.

(** *** Stripped strings *)

Lemma rev_onto_append (s acc : string) :
  rev_onto s acc = rev s ++ acc.
Proof.
  unfold rev. revert acc. induction s as [ | c s IH]; intros acc; simpl.
  - reflexivity.
  - rewrite (IH (String c acc)), (IH (String c "")), append_assoc. reflexivity.
Qed.

Lemma rev_cons (c : ascii) (s : string) : rev (String c s) = rev s ++ String c "".
Proof.
  unfold rev at 1. simpl. apply rev_onto_append.
Qed.

Lemma rev_append (a b : string) : rev (a ++ b) = rev b ++ rev a.
Proof.
  induction a as [ | c a IH]; simpl.
  - now rewrite append_empty_r.
  - now rewrite !rev_cons, IH, append_assoc.
Qed.

Lemma rev_involutive (s : string) : rev (rev s) = s.
Proof.
  induction s as [ | c s IH]; [ reflexivity | ].
  now rewrite rev_cons, rev_append, IH.
Qed.

Lemma lstrip_idempotent (s : string) : lstrip (lstrip s) = lstrip s.
Proof.
  induction s as [ | c s IH]; simpl; [ reflexivity | ].
  destruct (is_space c) eqn:E; [ exact IH | ]. simpl. now rewrite E.
Qed.

Lemma lstrip_snoc (u : string) (c : ascii) :
  is_space c = false -> exists v, lstrip (u ++ String c "") = v ++ String c "".
Proof.
  intros Hc. induction u as [ | x u IH]; simpl.
  - rewrite Hc. now exists "".
  - destruct (is_space x); [ exact IH | ]. now exists (String x u).
Qed.

Lemma rstrip_keeps_head (c : ascii) (r : string) :
  is_space c = false -> exists r', rstrip (String c r) = String c r'.
Proof.
  intros Hc. unfold rstrip. rewrite rev_cons.
  destruct (lstrip_snoc (rev r) c Hc) as (v & ->).
  rewrite rev_append. now exists (rev v).
Qed.

Lemma rstrip_idempotent (s : string) : rstrip (rstrip s) = rstrip s.
Proof.
  unfold rstrip. now rewrite rev_involutive, lstrip_idempotent.
Qed.

(** What [strip] returns is empty or starts and ends with a character that
    is no whitespace, and stripping it again changes nothing. *)
Lemma strip_spec (s : string) :
  strip (strip s) = strip s
  /\ (forall c r, strip s = String c r -> is_space c = false)
  /\ (forall c r, rev (strip s) = String c r -> is_space c = false).
Proof.
  unfold strip. split; [ | split ].
  - destruct (lstrip s) as [ | c r] eqn:E; [ reflexivity | ].
    pose proof (lstrip_head _ _ _ E) as Hc.
    destruct (rstrip_keeps_head c r Hc) as (r' & Hr).
    rewrite Hr. simpl lstrip. rewrite Hc, <- Hr. apply rstrip_idempotent.
  - intros c r H. destruct (lstrip s) as [ | c0 r0] eqn:E; [ discriminate H | ].
    pose proof (lstrip_head _ _ _ E) as Hc.
    destruct (rstrip_keeps_head c0 r0 Hc) as (r' & Hr). congruence.
  - intros c r H. unfold rstrip in H. rewrite rev_involutive in H.
    exact (lstrip_head _ _ _ H).
Qed.

Section Stripped.

Variable py_repr : jvalue -> string.

(** X18. The question text of a validated entry is trimmed: it is not empty, it
    starts and ends with a character that is no whitespace, and [strip]
    leaves it as it is. *)
Theorem validated_question_text_is_trimmed (i : Z) (it : jvalue) (x : item) :
  validate_entry py_repr i it = Ok x ->
  q x <> ""%string
  /\ strip (q x) = q x
  /\ (forall c r, q x = String c r -> is_space c = false)
  /\ (forall c r, rev (q x) = String c r -> is_space c = false).
Proof.
  intros H. apply validate_entry_Ok in H.
  destruct H as (d & n & _ & Hq & Hne & _).
  unfold question_text in Hq.
  destruct (py_or (py_or (get d "q") (get d "question")) (JStr ""))
    as [ | | | | s | | ]; try discriminate Hq.
  injection Hq as Hq. rewrite <- Hq.
  destruct (strip_spec s) as (Hidem & Hhead & Hlast).
  split; [ now rewrite Hq | ]. split; [ exact Hidem | ]. split; assumption.
Qed.

(** X19. The second attempt of the nested [try], [int(str(a).strip())], adds
    nothing for an answer that is a string, an integer, a boolean or a finite
    float: what [int(a)] gives is what is read. *)
Theorem answer_fallback_is_idle :
  (forall s, answer_int py_repr (JStr s) = int_of_string s)
  /\ (forall n, answer_int py_repr (JInt n) = Some n)
  /\ (forall b, answer_int py_repr (JBool b) = Some (if b then 1 else 0))
  /\ (forall m e, answer_int py_repr (JFloat (FFinite m e))
                  = int_of_float (FFinite m e)).
Proof.
  split; [ | repeat split ].
  intros s. unfold answer_int. cbn [int str].
  destruct (int_of_string s) as [n | ] eqn:E; [ reflexivity | ].
  unfold int_of_string in *. destruct (strip_spec s) as (-> & _). exact E.
Qed.

End Stripped.

Lemma split_on_nonempty (sep : ascii) (s : string) : split_on sep s <> [].
Proof.
  destruct s as [ | c s]; simpl; [ discriminate | ].
  destruct (Ascii.eqb c sep); [ discriminate | ].
  destruct (split_on sep s); discriminate.
Qed.

Lemma split_on_comma_free (s : string) :
  comma_free s = true -> split_on "," s = [s].
Proof.
  induction s as [ | c s IH]; simpl; [ reflexivity | ].
  rewrite andb_true_iff, negb_true_iff. intros [Hc Hs].
  now rewrite Hc, (IH Hs).
Qed.

Lemma split_on_append (a b : string) :
  comma_free a = true ->
  split_on "," (a ++ "," ++ b) = a :: split_on "," b.
Proof.
  induction a as [ | c a IH]; simpl.
  - reflexivity.
  - rewrite andb_true_iff, negb_true_iff. intros [Hc Ha].
    rewrite Hc. simpl in IH. now rewrite (IH Ha).
Qed.

Lemma split_on_join (l : list string) :
  l <> [] -> Forall (fun o => comma_free o = true) l ->
  split_on "," (join_commas l) = l.
Proof.
  induction l as [ | x l IH]; intros Hne Hall; [ contradiction | ].
  inversion Hall as [ | ? ? Hx Hl]; subst.
  destruct l as [ | y l].
  - simpl. now apply split_on_comma_free.
  - change (join_commas (x :: y :: l)) with (x ++ "," ++ join_commas (y :: l)).
    rewrite (split_on_append _ _ Hx). f_equal. apply IH; [ discriminate | exact Hl ].
Qed.

(** X20. The origins handed to the CORS middleware are trimmed and none is empty;
    and a list of such origins without commas, joined by commas in the
    environment variable, is read back as it is. *)
Theorem allow_origins_trimmed_and_read_back :
  (forall v, Forall (fun o => o <> ""%string /\ strip o = o) (allow_origins v))
  /\ (forall l,
         l <> [] ->
         Forall (fun o => o <> ""%string /\ strip o = o /\ comma_free o = true) l ->
         allow_origins (join_commas l) = l).
Proof.
  split.
  - intros v. unfold allow_origins. apply Forall_forall. intros o Ho.
    apply in_map_iff in Ho. destruct Ho as (x & <- & Hx).
    apply filter_In in Hx. destruct Hx as [_ Hx].
    apply negb_true_iff, String.eqb_neq in Hx.
    split; [ exact Hx | apply strip_spec ].
  - intros l Hne Hall. unfold allow_origins.
    rewrite split_on_join.
    + clear Hne. induction Hall as [ | x l (Hx & Hs & _) _ IH]; [ reflexivity | ].
      cbn [filter]. rewrite Hs. apply String.eqb_neq in Hx. rewrite Hx.
      cbn [negb map]. now rewrite Hs, IH.
    + exact Hne.
    + eapply Forall_impl; [ | exact Hall ]. cbn. tauto.
Qed.

Section ListingFilters.

Variable PUBLIC_BASE_URL : string.
Variable isoformat : Z -> string.

(** X21. Filters only narrow a listing: what is listed under filters is listed
    without them; and every record listed under a difficulty filter has that
    difficulty. *)
Theorem listing_filters_narrow
    (skill_ difficulty_ search : option string) (db : list Quiz) (it : ListItem) :
  In it (items (list_quizzes PUBLIC_BASE_URL isoformat
                  skill_ difficulty_ search db)) ->
  In it (items (list_quizzes PUBLIC_BASE_URL isoformat None None None db))
  /\ forall v, given difficulty_ = Some v -> item_difficulty it = Some v.
Proof.
  intros H. apply In_list_quizzes in H. destruct H as (r & Hin & Hw & ->).
  unfold listing_where in Hw. rewrite !andb_true_iff in Hw.
  destruct Hw as [[[Hp _] Hd] _]. split.
  - apply In_list_quizzes. exists r. split; [ exact Hin | ].
    split; [ | reflexivity ].
    unfold listing_where. cbn [given]. now rewrite Hp.
  - intros v Hv. rewrite Hv in Hd. cbn [listing_item item_difficulty].
    unfold col_eq in Hd. destruct (difficulty r) as [x | ]; [ | discriminate Hd ].
    apply String.eqb_eq in Hd. now subst.
Qed.

End ListingFilters.

(** *** Instances of the properties above *)

Lemma missing_keyed_option_is_empty_option_witness :
  validate_entry Samples.py_repr 1 (JDict Samples.entry_without_4)
  = Raise (HTTPException 400 (Q 1 "options cannot be empty")).
Proof.
  apply (missing_keyed_option_is_empty_option Samples.py_repr 1
           Samples.entry_without_4 "2 + 2 = ?" "4").
  - reflexivity.
  - discriminate.
  - intros l. discriminate.
  - simpl. auto.
  - reflexivity.
Defined.

Lemma non_object_meta_raises_witness :
  normalize_and_validate Samples.py_repr (JDict Samples.object_with_text_meta)
  = Raise AttributeError.
Proof.
  apply (non_object_meta_raises Samples.py_repr Samples.object_with_text_meta
           [JDict [("q", JStr "2 + 2 = ?");
                   ("options", JList [JStr "1"; JStr "2"; JStr "3"; JStr "4"]);
                   ("a", JInt 4)]]
           Samples.items_one_based (JStr "")).
  - reflexivity.
  - reflexivity.
  - reflexivity.
  - reflexivity.
  - reflexivity.
  - intros m. discriminate.
Defined.

Lemma import_then_get_returns_document_witness :
  get_quiz_json (import_id Samples.response_one_based) [Samples.row_one_based]
  = Ok (ImportPayload.json (Samples.payload_of Samples.doc_one_based)).
Proof.
  apply (import_then_get_returns_document
           "change-me" "http://localhost:8080" Samples.py_repr Samples.adapt_text
           (Samples.payload_of Samples.doc_one_based)
           (Some "Bearer change-me") "q-1" 0 []).
  reflexivity.
Defined.

Lemma import_leaves_other_quizzes_witness :
  get_quiz_json "q-1"
    (snd (api_import "change-me" "http://localhost:8080"
            Samples.py_repr Samples.adapt_text
            (Samples.payload_of Samples.doc_one_based)
            (Some "Bearer change-me") "q-2" 5 [Samples.row_one_based]))
  = get_quiz_json "q-1" [Samples.row_one_based].
Proof.
  apply (import_leaves_other_quizzes
           "change-me" "http://localhost:8080" Samples.py_repr Samples.adapt_text
           (Samples.payload_of Samples.doc_one_based)
           (Some "Bearer change-me") "q-2" 5 [Samples.row_one_based] "q-1").
  discriminate.
Defined.

Lemma import_counts_what_validate_reports_witness :
  exists v row,
    api_validate Samples.py_repr (Samples.payload_of Samples.doc_one_based) = Ok v
    /\ [Samples.row_one_based] = ([] ++ [row])%list
    /\ question_count row = validate_question_count v
    /\ meta_count (import_meta Samples.response_one_based) = validate_question_count v
    /\ 1 <= validate_question_count v.
Proof.
  apply (import_counts_what_validate_reports
           "change-me" "http://localhost:8080" Samples.py_repr Samples.adapt_text
           (Samples.payload_of Samples.doc_one_based)
           (Some "Bearer change-me") "q-1" 0 []).
  reflexivity.
Defined.

Lemma import_rejects_what_validate_rejects_witness :
  api_import "change-me" "http://localhost:8080" Samples.py_repr Samples.adapt_text
    (Samples.payload_of (JList [])) (Some ("Bearer " ++ "change-me")) "q-1" 0 []
  = (Raise (HTTPException 400 invalid_json), []).
Proof.
  apply (import_rejects_what_validate_rejects
           "change-me" "http://localhost:8080" Samples.py_repr Samples.adapt_text
           (Samples.payload_of (JList [])) "q-1" 0 []).
  reflexivity.
Defined.

Lemma imported_row_is_well_formed_witness :
  exists row sk y,
    [Samples.row_one_based] = ([] ++ [row])%list
    /\ id row = "q-1"%string /\ status row = "published"%string
    /\ created_at row = 0 /\ updated_at row = 0
    /\ skill row = Some sk /\ sk <> ""%string
    /\ yoe row = Some y /\ y <> ""%string
    /\ import_url Samples.response_one_based
       = item_url (listing_item "http://localhost:8080" Samples.isoformat row).
Proof.
  apply (imported_row_is_well_formed
           "change-me" "http://localhost:8080" Samples.py_repr Samples.adapt_text
           Samples.isoformat
           (Samples.payload_of Samples.doc_one_based)
           (Some "Bearer change-me") "q-1" 0 []).
  reflexivity.
Defined.

Lemma import_skill_source_witness :
  exists items name row sk,
    normalize_and_validate Samples.py_repr
      (ImportPayload.json (Samples.payload_of Samples.doc_one_based))
    = Ok (items, name)
    /\ [Samples.row_one_based] = ([] ++ [row])%list
    /\ skill row = Some sk
    /\ meta_skill (import_meta Samples.response_one_based) = sk
    /\ let given_skill :=
         strip (or_str (ImportPayload.skill (Samples.payload_of Samples.doc_one_based)) "") in
       (given_skill <> ""%string /\ sk = given_skill)
       \/ (given_skill = ""%string
           /\ exists t, name = JStr t /\ t <> ""%string /\ split_first t = Ok sk)
       \/ (given_skill = ""%string /\ truthy name = false /\ sk = "General"%string).
Proof.
  apply (import_skill_source
           "change-me" "http://localhost:8080" Samples.py_repr Samples.adapt_text
           (Samples.payload_of Samples.doc_one_based)
           (Some "Bearer change-me") "q-1" 0 []).
  reflexivity.
Defined.

Lemma import_without_skill_needs_a_word_witness :
  exists e,
    api_import "change-me" "http://localhost:8080" Samples.py_repr Samples.adapt_text
      (Samples.payload_of Samples.doc_blank_name)
      (Some ("Bearer " ++ "change-me")) "q-1" 0 []
    = (Raise e, [])
    /\ e = IndexError.
Proof.
  apply (import_without_skill_needs_a_word
           "change-me" "http://localhost:8080" Samples.py_repr Samples.adapt_text
           (Samples.payload_of Samples.doc_blank_name) "q-1" 0 []
           Samples.items_one_based (JStr "  ")).
  - reflexivity.
  - reflexivity.
  - reflexivity.
  - intros t H. injection H as <-. reflexivity.
Defined.

Lemma imported_quiz_is_listed_witness :
  exists it,
    In it (items (list_quizzes "http://localhost:8080" Samples.isoformat
                    (Some "General") None None [Samples.row_one_based]))
    /\ item_id it = import_id Samples.response_one_based
    /\ item_url it = import_url Samples.response_one_based
    /\ item_count it = meta_count (import_meta Samples.response_one_based)
    /\ item_skill it = Some (meta_skill (import_meta Samples.response_one_based)).
Proof.
  apply (imported_quiz_is_listed
           "change-me" "http://localhost:8080" Samples.py_repr Samples.adapt_text
           Samples.isoformat
           (Samples.payload_of Samples.doc_one_based)
           (Some "Bearer change-me") "q-1" 0 [] [Samples.row_one_based]
           Samples.response_one_based (Some "General")).
  - reflexivity.
  - right. reflexivity.
Defined.

Lemma imported_quiz_in_manifest_witness :
  In (import_url Samples.response_one_based)
     (manifest "http://localhost:8080" [Samples.row_one_based]).
Proof.
  apply (imported_quiz_in_manifest
           "change-me" "http://localhost:8080" Samples.py_repr Samples.adapt_text
           (Samples.payload_of Samples.doc_one_based)
           (Some "Bearer change-me") "q-1" 0 [] [Samples.row_one_based]
           Samples.response_one_based).
  - reflexivity.
  - simpl. lia.
Defined.

Lemma validated_question_text_is_trimmed_witness :
  validate_entry Samples.py_repr 1
    (JDict [("q", JStr "  2 + 2 = ? "); ("options", JList [JStr "1"; JStr "2"; JStr "3"; JStr "4"]);
            ("a", JInt 4)])
  = Ok {| q := "2 + 2 = ?"; options := ["1"; "2"; "3"; "4"]; correct := 3 |}
  /\ "2 + 2 = ?"%string <> ""%string
  /\ strip "2 + 2 = ?" = "2 + 2 = ?"%string
  /\ (forall c r, "2 + 2 = ?"%string = String c r -> is_space c = false)
  /\ (forall c r, rev "2 + 2 = ?" = String c r -> is_space c = false).
Proof.
  split; [ reflexivity | ].
  apply (validated_question_text_is_trimmed Samples.py_repr 1
           (JDict [("q", JStr "  2 + 2 = ? ");
                   ("options", JList [JStr "1"; JStr "2"; JStr "3"; JStr "4"]);
                   ("a", JInt 4)])
           {| q := "2 + 2 = ?"; options := ["1"; "2"; "3"; "4"]; correct := 3 |}).
  reflexivity.
Defined.

Lemma listing_filters_narrow_witness :
  In (listing_item "http://localhost:8080" Samples.isoformat Samples.row_one_based)
     (items (list_quizzes "http://localhost:8080" Samples.isoformat
               None None None [Samples.row_one_based]))
  /\ forall v, given (Some "Mixed") = Some v ->
               item_difficulty (listing_item "http://localhost:8080" Samples.isoformat
                                  Samples.row_one_based) = Some v.
Proof.
  apply (listing_filters_narrow "http://localhost:8080" Samples.isoformat
           (Some "General") (Some "Mixed") (Some "custom") [Samples.row_one_based]).
  left. reflexivity.
Defined.

(** ** Properties of the quiz flow *)

Import App.

Lemma getitem_in_range {A : Type} (l : list A) (i : Z) :
  0 <= i < Z.of_nat (List.length l) ->
  exists x, getitem l i = Ok x /\ nth_error l (Z.to_nat i) = Some x.
Proof.
  intros Hi. unfold getitem.
  destruct (i <? 0) eqn:Hneg; [ lia | ].
  replace ((0 <=? i) && (i <? Z.of_nat (List.length l))) with true by lia.
  destruct (nth_error l (Z.to_nat i)) as [x | ] eqn:Hn; [ eauto | ].
  apply nth_error_None in Hn. lia.
Qed.

(** C9. When the cursor is not below the length of the sampled sequence, a
    submission returns the session as it received it (score, log and cursor
    included) with a redirect to [test], which in that state redirects to
    [result]. *)
Theorem submit_past_the_end_changes_nothing
    (form_option : option string) (session : Session) :
  Z.of_nat (List.length (get_default (questions session) []))
  <= get_default (current_question session) 0 ->
  submit form_option session = Ok (session, redirect "test")
  /\ test session = Ok (redirect "result").
Proof.
  intros H. unfold submit, test.
  destruct (get_default (current_question session) 0
            <? Z.of_nat (List.length (get_default (questions session) [])))
    eqn:E; [ lia | ].
  split; reflexivity.
Qed.

(** An instance: an attempt on one question, already answered. *)
Lemma submit_past_the_end_changes_nothing_witness :
  submit (Some "a")
    {| questions := Some [Samples.question_b]; current_question := Some 1;
       score := Some 1;
       answers := Some [{| question := Samples.question_b; correct := true;
                           selected_option := Some "b" |}] |}
  = Ok ({| questions := Some [Samples.question_b]; current_question := Some 1;
           score := Some 1;
           answers := Some [{| question := Samples.question_b; correct := true;
                               selected_option := Some "b" |}] |},
        redirect "test")
  /\ test
       {| questions := Some [Samples.question_b]; current_question := Some 1;
          score := Some 1;
          answers := Some [{| question := Samples.question_b; correct := true;
                              selected_option := Some "b" |}] |}
     = Ok (redirect "result").
Proof.
  apply (submit_past_the_end_changes_nothing (Some "a")
           {| questions := Some [Samples.question_b]; current_question := Some 1;
              score := Some 1;
              answers := Some [{| question := Samples.question_b; correct := true;
                                  selected_option := Some "b" |}] |}).
  simpl. lia.
Defined.

(** A submission whose key is not the key found for the answer text is
    logged as incorrect: the score stays, the log gains one entry, the cursor
    moves on, and nothing is raised. *)
Lemma submit_other_key_is_incorrect
    (form_option : option string) (qs : list Question) (cursor points : Z)
    (log : list Answer) (q : Question) :
  0 <= cursor < Z.of_nat (List.length qs) ->
  nth_error qs (Z.to_nat cursor) = Some q ->
  option_eqb form_option (correct_key (options q) (answer q)) = false ->
  submit form_option
    {| questions := Some qs; current_question := Some cursor;
       score := Some points; answers := Some log |}
  = Ok ({| questions := Some qs; current_question := Some (cursor + 1);
           score := Some points;
           answers := Some (log ++ [{| question := q; correct := false;
                                       selected_option := form_option |}])%list |},
        redirect "test").
Proof.
  intros Hc Hq Hne. unfold submit. simpl.
  replace (cursor <? Z.of_nat (List.length qs)) with true by lia.
  destruct (getitem_in_range qs cursor Hc) as (q' & Hg & Hq').
  rewrite Hg. assert (q' = q) by congruence. subst q'.
  cbn [bind]. rewrite Hne. reflexivity.
Qed.

(** C10, the failing input. No option text of the question is its answer
    text, and the form carries no option: [None == None] holds, the score
    goes from 0 to 1 and the entry is logged as correct. *)
Theorem submit_without_option_scores_when_no_key_matches :
  submit None (Samples.fresh_attempt Samples.question_without_key)
  = Ok ({| questions := Some [Samples.question_without_key];
           current_question := Some 1;
           score := Some 1;
           answers := Some [{| question := Samples.question_without_key;
                               correct := true;
                               selected_option := None |}] |},
        redirect "test").
Proof.
  reflexivity.
Qed.

(** *** The attempt, from start to result *)

(** Distinct indices of [range(n)] are at most [n]. *)
Lemma random_sample_size (n k : Z) (indices : list Z) :
  random_sample n k indices -> k <= Z.max 0 n.
Proof.
  intros (Hlen & Hnd & Hrange).
  assert (Hincl : incl indices (map Z.of_nat (seq 0 (Z.to_nat n)))).
  { intros i Hi. rewrite Forall_forall in Hrange. specialize (Hrange i Hi).
    apply in_map_iff. exists (Z.to_nat i). split; [ lia | ].
    apply in_seq. lia. }
  pose proof (NoDup_incl_length Hnd Hincl) as Hle.
  rewrite length_map, length_seq in Hle. lia.
Qed.

Lemma pick_in_range (bank : list Question) (indices : list Z) :
  Forall (fun i => 0 <= i < Z.of_nat (List.length bank)) indices ->
  exists sampled,
    pick bank indices = Ok sampled
    /\ Forall2 (fun i q => nth_error bank (Z.to_nat i) = Some q) indices sampled.
Proof.
  induction 1 as [ | i rest Hi _ (xs & Hxs & Hall)]; simpl.
  - exists []. split; [ reflexivity | constructor ].
  - destruct (getitem_in_range bank i Hi) as (x & Hg & Hx).
    rewrite Hg, Hxs. simpl. exists (x :: xs). split; [ reflexivity | ].
    now constructor.
Qed.

Lemma attempt_inv_start (sampled : list Question) :
  attempt_inv {| questions := Some sampled; current_question := Some 0;
                 score := Some 0; answers := Some [] |}.
Proof.
  exists sampled, 0, 0, []. simpl. repeat split; lia.
Qed.

(** One submission keeps [attempt_inv], raises nothing, and moves the cursor
    by one while it is below the length of the sampled sequence. *)
Lemma submit_attempt_inv (form_option : option string) (session : Session) :
  attempt_inv session ->
  exists session',
    submit form_option session = Ok (session', redirect "test")
    /\ attempt_inv session'
    /\ questions session' = questions session
    /\ get_default (current_question session') 0
       = Z.min (get_default (current_question session) 0 + 1)
               (Z.of_nat (List.length (get_default (questions session) []))).
Proof.
  intros (qs & c & p & log & -> & Hc & Hlog & Hp & Hsum).
  unfold submit. cbn [get_default questions current_question].
  destruct (c <? Z.of_nat (List.length qs)) eqn:Hlt.
  - destruct (getitem_in_range qs c ltac:(lia)) as (q & Hg & _).
    rewrite Hg. cbn [bind].
    destruct (option_eqb form_option (correct_key (options q) (answer q))).
    + cbn. eexists. split; [ reflexivity | ]. split; [ | split; [ reflexivity | cbn; lia ] ].
      eexists qs, (c + 1), (p + 1), _. split; [ reflexivity | ].
      rewrite filter_app, !length_app. cbn. lia.
    + cbn. eexists. split; [ reflexivity | ]. split; [ | split; [ reflexivity | cbn; lia ] ].
      eexists qs, (c + 1), p, _. split; [ reflexivity | ].
      rewrite filter_app, !length_app. cbn. lia.
  - eexists. split; [ reflexivity | ]. split; [ | split; [ reflexivity | cbn; lia ] ].
    exists qs, c, p, log. auto.
Qed.

Lemma submissions_attempt_inv (forms : list (option string)) :
  forall session,
    attempt_inv session ->
    exists session',
      submissions forms session = Ok session'
      /\ attempt_inv session'
      /\ questions session' = questions session
      /\ get_default (current_question session') 0
         = Z.min (get_default (current_question session) 0
                  + Z.of_nat (List.length forms))
                 (Z.of_nat (List.length (get_default (questions session) []))).
Proof.
  induction forms as [ | f forms IH]; intros session Hinv.
  - exists session. split; [ reflexivity | ]. split; [ exact Hinv | ].
    split; [ reflexivity | ].
    destruct Hinv as (qs & c & p & log & -> & Hc & _). cbn. lia.
  - destruct (submit_attempt_inv f session Hinv) as (s1 & Hs & Hinv1 & Hq1 & Hc1).
    destruct (IH s1 Hinv1) as (s2 & Hs2 & Hinv2 & Hq2 & Hc2).
    exists s2. cbn [submissions]. rewrite Hs. cbn [bind fst].
    split; [ exact Hs2 | ]. split; [ exact Hinv2 | ].
    split; [ congruence | ].
    rewrite Hc2, Hc1, Hq1. cbn [List.length]. lia.
Qed.

(** C4. For the five indices [random.sample] returns, [start_test] stores
    the five bank entries at those pairwise distinct indices; after any run
    of submissions the score is at most five; and the incorrect answers the
    result view shows are as many as the questions answered less the score. *)
Theorem attempt_sample_score_and_result
    (bank : list Question) (indices : list Z) (session0 : Session)
    (forms : list (option string)) :
  random_sample (Z.of_nat (List.length bank)) 5 indices ->
  exists sampled started final points log,
    start_test bank indices session0 = Ok (started, redirect "test")
    /\ questions started = Some sampled
    /\ List.length sampled = 5%nat
    /\ NoDup indices
    /\ Forall2 (fun i q => nth_error bank (Z.to_nat i) = Some q) indices sampled
    /\ submissions forms started = Ok final
    /\ score final = Some points
    /\ answers final = Some log
    /\ 0 <= points <= 5
    /\ Z.of_nat (List.length log) = Z.min (Z.of_nat (List.length forms)) 5
    /\ result final = render_result points (filter (fun a => negb (correct a)) log)
    /\ Z.of_nat (List.length (filter (fun a => negb (correct a)) log))
       = Z.of_nat (List.length log) - points.
Proof.
  intros Hsample. pose proof (random_sample_size _ _ _ Hsample) as Hsize.
  destruct Hsample as (Hlen & Hnd & Hrange).
  destruct (pick_in_range bank indices Hrange) as (sampled & Hpick & Hall).
  assert (Hfive : List.length sampled = 5%nat).
  { rewrite <- (Forall2_length Hall). lia. }
  set (started := {| questions := Some sampled; current_question := Some 0;
                     score := Some 0; answers := Some [] |}).
  destruct (submissions_attempt_inv forms started (attempt_inv_start sampled))
    as (final & Hrun & (qs & c & p & log & -> & Hc & Hlog & Hp & Hsum) & Hqs & Hcur).
  cbn in Hqs, Hcur. injection Hqs as ->.
  eexists sampled, started, _, p, log.
  split.
  { unfold start_test.
    replace (Z.of_nat (List.length bank) <? 5) with false by lia.
    rewrite Hpick. reflexivity. }
  rewrite Hfive in *. repeat split; auto; try lia.
  all: first [ exact Hrun | reflexivity ].
Qed.

(** An instance: a bank of six entries, the sample 5, 0, 3, 1, 2 and three
    submissions. *)
Lemma attempt_sample_score_and_result_witness :
  random_sample (Z.of_nat (List.length Samples.bank)) 5 [5; 0; 3; 1; 2]
  /\ exists sampled started final points log,
      start_test Samples.bank [5; 0; 3; 1; 2] Samples.empty_session
      = Ok (started, redirect "test")
      /\ questions started = Some sampled
      /\ List.length sampled = 5%nat
      /\ NoDup [5; 0; 3; 1; 2]
      /\ Forall2 (fun i q => nth_error Samples.bank (Z.to_nat i) = Some q)
                 [5; 0; 3; 1; 2] sampled
      /\ submissions [None; Some "b"; Some "a"] started = Ok final
      /\ score final = Some points
      /\ answers final = Some log
      /\ 0 <= points <= 5
      /\ Z.of_nat (List.length log)
         = Z.min (Z.of_nat (List.length [None; Some "b"; Some "a"])) 5
      /\ result final
         = render_result points (filter (fun a => negb (correct a)) log)
      /\ Z.of_nat (List.length (filter (fun a => negb (correct a)) log))
         = Z.of_nat (List.length log) - points.
Proof.
  assert (Hsample : random_sample (Z.of_nat (List.length Samples.bank)) 5
                      [5; 0; 3; 1; 2]).
  { split; [ reflexivity | ]. split.
    - repeat (constructor; [ simpl; intuition discriminate | ]). constructor.
    - repeat (constructor; [ simpl; lia | ]). constructor. }
  split; [ exact Hsample | ].
  exact (attempt_sample_score_and_result Samples.bank [5; 0; 3; 1; 2]
           Samples.empty_session [None; Some "b"; Some "a"] Hsample).
Defined.

(** ** Further properties of the quiz flow *)

Lemma skipn_nth_error {A : Type} (l : list A) :
  forall (n : nat) (x : A),
    nth_error l n = Some x -> skipn n l = x :: skipn (S n) l.
Proof.
  induction l as [ | y l IH]; intros [ | n] x H; simpl in *; try discriminate.
  - now injection H as ->.
  - now apply IH.
Qed.

Lemma combine_app_short {A B : Type} (l : list A) :
  forall (l1 l2 : list B),
    (List.length l <= List.length l1)%nat ->
    combine l (l1 ++ l2) = combine l l1.
Proof.
  induction l as [ | x l IH]; intros l1 l2 H; [ reflexivity | ].
  destruct l1 as [ | y l1]; simpl in *; [ lia | ].
  f_equal. apply IH. lia.
Qed.

(** One submission on an open question: the question at the cursor is
    graded against the form value, logged, and the cursor moves on. *)
Lemma submit_step (f : option string) (qs : list Question) (c p : Z)
    (log : list Answer) (q : Question) :
  0 <= c < Z.of_nat (List.length qs) ->
  nth_error qs (Z.to_nat c) = Some q ->
  submit f {| questions := Some qs; current_question := Some c;
              score := Some p; answers := Some log |}
  = Ok ({| questions := Some qs; current_question := Some (c + 1);
           score := Some (if correct (graded q f) then p + 1 else p);
           answers := Some (log ++ [graded q f])%list |},
        redirect "test").
Proof.
  intros Hc Hq. unfold submit. cbn [get_default questions current_question].
  replace (c <? Z.of_nat (List.length qs)) with true by lia.
  destruct (getitem_in_range qs c Hc) as (q' & Hg & Hq').
  rewrite Hg. assert (q' = q) by congruence. subst q'. cbn [bind].
  unfold graded. cbn [correct].
  destruct (option_eqb f (correct_key (options q) (answer q))); reflexivity.
Qed.

(** A run of submissions from any cursor within the sampled sequence: the
    questions from the cursor on are graded against the form values, pair by
    pair, until either runs out. *)
Lemma submissions_from (forms : list (option string)) :
  forall (qs : list Question) (c p : Z) (log : list Answer),
    0 <= c <= Z.of_nat (List.length qs) ->
    let new := map (fun qf => graded (fst qf) (snd qf))
                   (combine (skipn (Z.to_nat c) qs) forms) in
    submissions forms {| questions := Some qs; current_question := Some c;
                         score := Some p; answers := Some log |}
    = Ok {| questions := Some qs;
            current_question := Some (c + Z.of_nat (List.length new));
            score := Some (p + points_of new);
            answers := Some (log ++ new)%list |}.
Proof.
  induction forms as [ | f forms IH]; intros qs c p log Hc; cbv zeta.
  - rewrite combine_nil. cbn. unfold points_of. cbn.
    now rewrite !Z.add_0_r, app_nil_r.
  - cbn [submissions].
    destruct (Z.eq_dec c (Z.of_nat (List.length qs))) as [Heq | Hne].
    + assert (Hend : submit f {| questions := Some qs; current_question := Some c;
                                 score := Some p; answers := Some log |}
                     = Ok ({| questions := Some qs; current_question := Some c;
                              score := Some p; answers := Some log |},
                           redirect "test")).
      { unfold submit. cbn [get_default questions current_question].
        replace (c <? Z.of_nat (List.length qs)) with false by lia. reflexivity. }
      rewrite Hend. cbn [bind fst]. rewrite (IH qs c p log Hc).
      rewrite skipn_all2 by lia. reflexivity.
    + destruct (getitem_in_range qs c ltac:(lia)) as (q & _ & Hq).
      rewrite (submit_step f qs c p log q ltac:(lia) Hq). cbn [bind fst].
      rewrite (IH qs (c + 1) _ _ ltac:(lia)).
      rewrite (skipn_nth_error qs _ q Hq).
      replace (Z.to_nat (c + 1)) with (S (Z.to_nat c)) by lia.
      cbn [combine map fst snd List.length]. rewrite <- app_assoc. cbn [app].
      f_equal. f_equal.
      * f_equal. lia.
      * f_equal. unfold points_of. cbn [filter].
        destruct (correct (graded q f)); cbn [List.length]; lia.
Qed.

(** X22. From the start of an attempt, the log is the sampled questions graded,
    in order, against the form values, one entry per question answered; the
    cursor is the length of the log, the score the number of its entries
    marked correct, and the result view shows the others. *)
Theorem attempt_log_is_graded_sample
    (qs : list Question) (forms : list (option string)) :
  let log := map (fun qf => graded (fst qf) (snd qf)) (combine qs forms) in
  let final := {| questions := Some qs;
                  current_question := Some (Z.of_nat (List.length log));
                  score := Some (points_of log);
                  answers := Some log |} in
  submissions forms {| questions := Some qs; current_question := Some 0;
                       score := Some 0; answers := Some [] |}
  = Ok final
  /\ List.length log = Nat.min (List.length qs) (List.length forms)
  /\ result final = render_result (points_of log)
                                  (filter (fun a => negb (correct a)) log).
Proof.
  cbv zeta. split; [ | split ].
  - rewrite (submissions_from forms qs 0 0 [] ltac:(lia)). reflexivity.
  - now rewrite length_map, length_combine.
  - reflexivity.
Qed.

(** X23. Once every sampled question is answered, further submissions are
    ignored: the run ends in the state it had reached. *)
Theorem submissions_after_the_last_are_ignored
    (qs : list Question) (forms more : list (option string)) :
  (List.length qs <= List.length forms)%nat ->
  submissions (forms ++ more)
    {| questions := Some qs; current_question := Some 0;
       score := Some 0; answers := Some [] |}
  = submissions forms
      {| questions := Some qs; current_question := Some 0;
         score := Some 0; answers := Some [] |}.
Proof.
  intros H.
  rewrite (submissions_from (forms ++ more) qs 0 0 [] ltac:(lia)).
  rewrite (submissions_from forms qs 0 0 [] ltac:(lia)).
  cbn [Z.to_nat skipn]. now rewrite (combine_app_short qs forms more H).
Qed.

(** X24. What [test] shows in the course of an attempt: after [k] submissions
    with questions left, the question at position [k], numbered [k + 1];
    with none left, the redirect to [result]. *)
Theorem test_shows_the_next_question
    (qs : list Question) (forms : list (option string)) (final : Session) :
  submissions forms {| questions := Some qs; current_question := Some 0;
                       score := Some 0; answers := Some [] |}
  = Ok final ->
  ((List.length forms < List.length qs)%nat ->
   exists q, nth_error qs (List.length forms) = Some q
             /\ test final = Ok (render_test q (Z.of_nat (List.length forms) + 1)))
  /\ ((List.length qs <= List.length forms)%nat ->
      test final = Ok (redirect "result")).
Proof.
  rewrite (submissions_from forms qs 0 0 [] ltac:(lia)). cbn [Z.to_nat skipn].
  intros H. injection H as <-.
  unfold test. cbn [get_default questions current_question].
  rewrite ?Z.add_0_l, length_map, length_combine. split; intros Hlen.
  - rewrite Nat.min_r by lia.
    replace (Z.of_nat (List.length forms) <? Z.of_nat (List.length qs))
      with true by lia.
    destruct (getitem_in_range qs (Z.of_nat (List.length forms)) ltac:(lia))
      as (q & Hg & Hq).
    rewrite Nat2Z.id in Hq. exists q. split; [ exact Hq | ].
    now rewrite Hg.
  - rewrite Nat.min_l by lia.
    replace (Z.of_nat (List.length qs) <? Z.of_nat (List.length qs))
      with false by lia.
    reflexivity.
Qed.

(** X25. The key a submission is graded against is the key of the first option
    whose text is the answer text; there is none exactly when no option has
    that text. *)
Theorem correct_key_is_first_match
    (items : list (string * string)) (answer : string) :
  (forall key,
      correct_key items answer = Some key
      <-> exists pre post,
            items = (pre ++ (key, answer) :: post)%list
            /\ Forall (fun kv => snd kv <> answer) pre)
  /\ (correct_key items answer = None
      <-> Forall (fun kv => snd kv <> answer) items).
Proof.
  induction items as [ | [k v] items [IHsome IHnone]]; simpl.
  - split.
    + intros key. split; [ discriminate | ].
      intros (pre & post & H & _). destruct pre; discriminate H.
    + split; auto.
  - destruct (v =? answer)%string eqn:E.
    + apply String.eqb_eq in E. subst v. split.
      * intros key. split.
        -- intros H. injection H as ->. now exists [], items.
        -- intros (pre & post & H & Hpre). destruct pre as [ | [k' v'] pre].
           ++ now injection H as ->.
           ++ injection H as -> -> _. inversion Hpre; subst. simpl in *. congruence.
      * split; [ discriminate | ].
        intros H. inversion H; subst. simpl in *. congruence.
    + apply String.eqb_neq in E. split.
      * intros key. rewrite IHsome. split.
        -- intros (pre & post & -> & Hpre). exists ((k, v) :: pre), post.
           split; [ reflexivity | ]. constructor; auto.
        -- intros (pre & post & H & Hpre). destruct pre as [ | [k' v'] pre].
           ++ injection H as _ -> _. contradiction.
           ++ injection H as _ _ ->. inversion Hpre; subst. eauto.
      * rewrite IHnone. split.
        -- intros H. constructor; auto.
        -- intros H. now inversion H.
Qed.

Lemma Forall2_In_r {A B : Type} (R : A -> B -> Prop) (l : list A) (l' : list B) (y : B) :
  Forall2 R l l' -> In y l' -> exists x, In x l /\ R x y.
Proof.
  induction 1 as [ | a b l l' Hab _ IH]; intros Hin; [ destruct Hin | ].
  destruct Hin as [<- | Hin].
  - exists a. split; [ now left | exact Hab ].
  - destruct (IH Hin) as (x & Hx & HR). exists x. split; [ now right | exact HR ].
Qed.

(** X26. The questions of an attempt are entries of the bank, and no entry is
    asked twice when the bank holds none twice. *)
Theorem sampled_questions_are_distinct_bank_entries
    (bank : list Question) (indices : list Z) (session0 session : Session)
    (r : Response) :
  random_sample (Z.of_nat (List.length bank)) 5 indices ->
  start_test bank indices session0 = Ok (session, r) ->
  exists sampled,
    questions session = Some sampled
    /\ (forall q, In q sampled -> In q bank)
    /\ (NoDup bank -> NoDup sampled).
Proof.
  intros (Hlen & Hnd & Hrange) Hstart.
  destruct (pick_in_range bank indices Hrange) as (sampled & Hpick & Hall).
  unfold start_test in Hstart.
  destruct (Z.of_nat (List.length bank) <? 5); [ discriminate Hstart | ].
  rewrite Hpick in Hstart. cbn [bind] in Hstart. injection Hstart as <- _.
  exists sampled. split; [ reflexivity | ]. split.
  - intros q Hq. destruct (Forall2_In_r _ _ _ _ Hall Hq) as (i & _ & Hi).
    eapply nth_error_In. exact Hi.
  - intros Hbank. clear Hpick Hlen.
    induction Hall as [ | i q indices' sampled' Hi Hall' IH]; [ constructor | ].
    inversion Hnd as [ | ? ? Hnotin Hnd']; subst.
    inversion Hrange as [ | ? ? Hir Hrange']; subst.
    constructor; [ | now apply IH ].
    intros Hin. destruct (Forall2_In_r _ _ _ _ Hall' Hin) as (j & Hj & Hjq).
    rewrite Forall_forall in Hrange'. specialize (Hrange' j Hj).
    assert (Heq : Z.to_nat i = Z.to_nat j).
    { apply (proj1 (NoDup_nth_error bank) Hbank); [ | congruence ].
      apply nth_error_Some. congruence. }
    apply Hnotin. replace i with j by lia. exact Hj.
Qed.

(** *** Instances of the properties above *)

Lemma submissions_after_the_last_are_ignored_witness :
  submissions ([Some "b"] ++ [None; Some "a"])
    {| questions := Some [Samples.question_b]; current_question := Some 0;
       score := Some 0; answers := Some [] |}
  = submissions [Some "b"]
      {| questions := Some [Samples.question_b]; current_question := Some 0;
         score := Some 0; answers := Some [] |}.
Proof.
  apply (submissions_after_the_last_are_ignored
           [Samples.question_b] [Some "b"] [None; Some "a"]).
  simpl. lia.
Defined.

Lemma test_shows_the_next_question_witness :
  ((List.length [Some "b"] < List.length [Samples.question_b; Samples.question_without_key])%nat ->
   exists q,
     nth_error [Samples.question_b; Samples.question_without_key]
               (List.length [Some "b"]) = Some q
     /\ test {| questions := Some [Samples.question_b; Samples.question_without_key];
                current_question := Some 1;
                score := Some 1;
                answers := Some [graded Samples.question_b (Some "b")] |}
        = Ok (render_test q (Z.of_nat (List.length [Some "b"]) + 1)))
  /\ ((List.length [Samples.question_b; Samples.question_without_key]
       <= List.length [Some "b"])%nat ->
      test {| questions := Some [Samples.question_b; Samples.question_without_key];
              current_question := Some 1;
              score := Some 1;
              answers := Some [graded Samples.question_b (Some "b")] |}
      = Ok (redirect "result")).
Proof.
  apply (test_shows_the_next_question
           [Samples.question_b; Samples.question_without_key] [Some "b"]).
  reflexivity.
Defined.

Lemma sampled_questions_are_distinct_bank_entries_witness :
  exists sampled,
    questions {| questions := Some [Samples.question_without_key; Samples.question_b;
                                    Samples.question_b; Samples.question_without_key;
                                    Samples.question_b];
                 current_question := Some 0; score := Some 0; answers := Some [] |}
    = Some sampled
    /\ (forall q, In q sampled -> In q Samples.bank)
    /\ (NoDup Samples.bank -> NoDup sampled).
Proof.
  apply (sampled_questions_are_distinct_bank_entries
           Samples.bank [5; 0; 3; 1; 2] Samples.empty_session _ (redirect "test")).
  - split; [ reflexivity | ]. split.
    + repeat (constructor; [ simpl; intuition discriminate | ]). constructor.
    + repeat (constructor; [ simpl; lia | ]). constructor.
  - reflexivity.
Defined.
